(** * Bell and GHZ playground scripts: circuit construction, sampling, reporting

    The repository holds two Python scripts,
    "2 qubit GHZ state.py" and "3 Qubits GHZ state.py".  Each one builds a
    circuit object by calling its methods in sequence, hands it to a
    simulation backend, and reports the frequency table, with the histogram
    drawn inside a try/except block.

    The scripts are embedded as programs of a small state-and-exception monad:
    circuit objects live in a store and are mutated in place by [h], [cx] and
    [measure]; every call that leaves the script (backend lookup, transpile,
    run, print, plotting) is recorded in a trace; what the outside world
    answers is read from an environment. *)

From Stdlib Require Import ZArith Lia.
From stdpp Require Import base option list strings pretty gmap fin_maps.

Open Scope Z_scope.

(** ** Circuits *)

(** One entry of a circuit's instruction list.  [qc.h(q)] appends [HGate q],
    [qc.cx(c, t)] appends [CXGate c t], and [qc.measure(qs, cs)] appends one
    [MeasureOp q c] per pair of the two lists. *)
Inductive Instruction : Type :=
  | HGate (qubit : Z)
  | CXGate (control target : Z)
  | MeasureOp (qubit clbit : Z).

(** [QuantumCircuit(n, m)]: n qubits, m classical bits, no instruction yet. *)
Record QuantumCircuit : Type := mkCircuit {
  circ_num_qubits : Z;
  circ_num_clbits : Z;
  circ_data : list Instruction
}.

Definition new_circuit (n m : Z) : QuantumCircuit :=
  {| circ_num_qubits := n; circ_num_clbits := m; circ_data := [] |}.

Definition append (i : Instruction) (c : QuantumCircuit) : QuantumCircuit :=
  {| circ_num_qubits := circ_num_qubits c;
     circ_num_clbits := circ_num_clbits c;
     circ_data := circ_data c ++ [i] |}.

Definition circ_h (q : Z) : QuantumCircuit → QuantumCircuit :=
  append (HGate q).

Definition circ_cx (c t : Z) : QuantumCircuit → QuantumCircuit :=
  append (CXGate c t).

Definition circ_measure (qs cs : list Z) (c : QuantumCircuit) : QuantumCircuit :=
  foldl (λ acc qc, append (MeasureOp qc.1 qc.2) acc) c (zip qs cs).

(** The two views the specification takes of a circuit: its gate sequence and
    its measurement bindings (qubit, classical slot). *)
Definition is_gate (i : Instruction) : bool :=
  match i with
  | HGate _ | CXGate _ _ => true
  | MeasureOp _ _ => false
  end.

Definition gates (c : QuantumCircuit) : list Instruction :=
  List.filter is_gate (circ_data c).

Definition bindings (c : QuantumCircuit) : list (Z * Z) :=
  omap (λ i, match i with MeasureOp q b => Some (q, b) | _ => None end)
       (circ_data c).

Definition is_hadamard (i : Instruction) : bool :=
  match i with HGate _ => true | _ => false end.

Definition is_cnot (i : Instruction) : bool :=
  match i with CXGate _ _ => true | _ => false end.

Definition count_instr (p : Instruction → bool) (c : QuantumCircuit) : nat :=
  length (List.filter p (circ_data c)).

(** The invariant of the data model: every index an instruction names is
    within the declared width, and no classical slot is bound twice. *)
Definition in_width (c : QuantumCircuit) (i : Instruction) : Prop :=
  match i with
  | HGate q => 0 ≤ q < circ_num_qubits c
  | CXGate a b => (0 ≤ a < circ_num_qubits c) ∧ (0 ≤ b < circ_num_qubits c)
  | MeasureOp q b => (0 ≤ q < circ_num_qubits c) ∧ (0 ≤ b < circ_num_clbits c)
  end.

Definition well_formed (c : QuantumCircuit) : Prop :=
  Forall (in_width c) (circ_data c) ∧ NoDup (snd <$> bindings c).

(** ** Frequency tables *)

(** A Python dict from bitstring to count. *)
Abbreviation Counts := (gmap string nat).

(** ** The world outside the scripts *)

Inductive Printed : Type :=
  | PStr (s : string)
  | PDiagram (c : QuantumCircuit)
  | PCounts (c : Counts).

(** What the script does to the outside, in program order.  Backend handles
    are object identities. *)
Inductive Event : Type :=
  | EGetBackend (name : string) (handle : nat)
  | ETranspile (c : QuantumCircuit) (handle : nat)
  | ERun (c : QuantumCircuit) (handle : nat) (shots : nat)
  | EPrint (p : Printed)
  | EPlotHistogram (counts : Counts) (title : string)
  | ETightLayout
  | EShow.

(** The answers of the outside world, each as a function of the history so
    far.  [Some msg] in a [_fails] field means that the call raises
    [Exception(msg)]. *)
Record Env : Type := mkEnv {
  get_backend_fails : list Event → string → option string;
  transpile_result : list Event → QuantumCircuit → QuantumCircuit;
  shot_outcome : list Event → QuantumCircuit → nat → string;
  plot_histogram_fails : list Event → option string;
  tight_layout_fails : list Event → option string;
  show_fails : list Event → option string
}.

(** ** Script state and the script monad *)

Record State : Type := mkState {
  heap : gmap nat QuantumCircuit;
  next_id : nat;
  trace : list Event
}.

Definition init_state : State :=
  {| heap := ∅; next_id := 0%nat; trace := [] |}.

(** How a piece of script ends: it returns a value, or it raises an instance of
    [Exception] whose text is [msg].  (Signals outside [Exception], such as a
    keyboard interrupt, are not part of the model.) *)
Inductive Result (A : Type) : Type :=
  | Returned (a : A)
  | Raised (msg : string).
Arguments Returned {A} a.
Arguments Raised {A} msg.

Definition Py (A : Type) : Type := Env → State → Result A * State.

Definition py_ret {A} (a : A) : Py A := λ _ σ, (Returned a, σ).

Definition py_bind {A B} (f : A → Py B) (m : Py A) : Py B :=
  λ e σ, match m e σ with
         | (Returned a, σ') => f a e σ'
         | (Raised msg, σ') => (Raised msg, σ')
         end.

Global Instance Py_ret : MRet Py := @py_ret.
Global Instance Py_bind : MBind Py := @py_bind.

Definition raise {A} (msg : string) : Py A := λ _ σ, (Raised msg, σ).

(** [try: body except Exception as e: handler e]. *)
Definition try_except (body : Py unit) (handler : string → Py unit) : Py unit :=
  λ e σ, match body e σ with
         | (Returned tt, σ') => (Returned tt, σ')
         | (Raised msg, σ') => handler msg e σ'
         end.

Definition emit (ev : Event) : Py unit :=
  λ _ σ, (Returned tt,
          {| heap := heap σ; next_id := next_id σ; trace := trace σ ++ [ev] |}).

Definition fresh : Py nat :=
  λ _ σ, (Returned (next_id σ),
          {| heap := heap σ; next_id := S (next_id σ); trace := trace σ |}).

Definition store (l : nat) (c : QuantumCircuit) : Py unit :=
  λ _ σ, (Returned tt,
          {| heap := <[l := c]> (heap σ); next_id := next_id σ; trace := trace σ |}).

Definition load (l : nat) : Py QuantumCircuit :=
  λ _ σ, match heap σ !! l with
         | Some c => (Returned c, σ)
         | None => (Raised "NameError", σ)
         end.

Definition ask {A} (f : Env → list Event → A) : Py A :=
  λ e σ, (Returned (f e (trace σ)), σ).

(** ** The sampler *)

(** Modelled from the spec: the sampler of the simulation backend
    ([simulator.run], [job.result], [result.get_counts]), which is library
    code outside the two scripts.  One run executes the compiled circuit
    [shots] times, each execution yields one bitstring, and the frequency
    table maps each bitstring to the number of executions that yielded it. *)
Definition tally (outcomes : list string) : Counts :=
  foldl (λ m k, <[k := S (default 0%nat (m !! k))]> m) ∅ outcomes.

Definition sample (e : Env) (hist : list Event) (c : QuantumCircuit)
    (shots : nat) : list string :=
  shot_outcome e hist c <$> seq 0 shots.

(** Sum of all counts of a frequency table. *)
Definition total (c : Counts) : nat :=
  map_fold (λ _ v acc, (v + acc)%nat) 0%nat c.

(** ** The library calls the scripts make *)

Definition QuantumCircuit_ (n m : Z) : Py nat :=
  l ← fresh; store l (new_circuit n m);; mret l.

Definition update (l : nat) (f : QuantumCircuit → QuantumCircuit) : Py unit :=
  c ← load l; store l (f c).

(** [qc.h(q)], [qc.cx(c, t)], [qc.measure(qs, cs)] mutate the circuit object
    in place.  The scripts pass only indices within the width of the circuit,
    and lists of equal length to [measure]; what the library does otherwise is
    not modelled ([well_formed] below states the condition). *)
Definition h (qc : nat) (q : Z) : Py unit := update qc (circ_h q).
Definition cx (qc : nat) (c t : Z) : Py unit := update qc (circ_cx c t).
Definition measure (qc : nat) (qs cs : list Z) : Py unit :=
  update qc (circ_measure qs cs).

Definition Aer_get_backend (name : string) : Py nat :=
  r ← ask (λ e hist, get_backend_fails e hist name);
  match r with
  | Some msg => raise msg
  | None => b ← fresh; emit (EGetBackend name b);; mret b
  end.

(** [transpile] returns a new circuit object and leaves its argument alone. *)
Definition transpile (qc backend : nat) : Py nat :=
  c ← load qc;
  t ← ask (λ e hist, transpile_result e hist c);
  emit (ETranspile c backend);;
  l ← fresh; store l t;; mret l.

(** A job, and the result object it gives, hold the outcome of every shot. *)
Definition run (backend circ : nat) (shots : nat) : Py (list string) :=
  c ← load circ;
  job ← ask (λ e hist, sample e hist c shots);
  emit (ERun c backend shots);;
  mret job.

Definition result (job : list string) : Py (list string) := mret job.

Definition get_counts (result : list string) (qc : nat) : Py Counts :=
  _ ← load qc; mret (tally result).

Definition draw (qc : nat) : Py Printed :=
  c ← load qc; mret (PDiagram c).

Definition print (p : Printed) : Py unit := emit (EPrint p).

Definition external (ev : Event) (fails : Env → list Event → option string)
    : Py unit :=
  emit ev;;
  r ← ask fails;
  match r with
  | Some msg => raise msg
  | None => mret tt
  end.

Definition plot_histogram (counts : Counts) (title : string) : Py unit :=
  external (EPlotHistogram counts title) plot_histogram_fails.

Definition plt_tight_layout : Py unit := external ETightLayout tight_layout_fails.

Definition plt_show : Py unit := external EShow show_fails.

(** The newline of the Python literals that start with a backslash-n. *)
Definition nl : string := String (Ascii.ascii_of_nat 10) EmptyString.

(** ** The 2-qubit script *)

Module TwoQubit.

Definition num_qubits : Z := 2.

(** Sections 1-4 (lines 19-42): the Bell circuit. *)
Definition build_qc : Py nat :=
  qc ← QuantumCircuit_ num_qubits num_qubits;
  h qc 0;;
  cx qc 0 1;;
  measure qc [0; 1] [0; 1];;
  mret qc.

Definition num_shots : nat := 1024.

(** Section 5 (lines 47-62). *)
Definition simulate (qc : nat) : Py (nat * nat * Counts) :=
  simulator ← Aer_get_backend "qasm_simulator";
  transpiled_qc ← transpile qc simulator;
  job ← run simulator transpiled_qc num_shots;
  result ← result job;
  counts ← get_counts result qc;
  mret (simulator, transpiled_qc, counts).

(** Section 6 (lines 67-86). *)
Definition visualize (qc : nat) (counts : Counts) : Py unit :=
  print (PStr "--- Quantum Circuit Diagram ---");;
  d ← draw qc; print d;;
  print (PStr (nl ++ "--- Measurement Outcomes (Simulated "
                  ++ pretty num_shots ++ " shots) ---"));;
  print (PCounts counts);;
  try_except
    (plot_histogram counts "Measurement Outcomes of Entangled Qubits";;
     plt_tight_layout;;
     plt_show;;
     print (PStr (nl ++ "Successfully displayed histogram plot.")))
    (λ e,
     print (PStr (nl ++ "Could not display histogram plot. Error: " ++ e));;
     print (PStr "This might happen in environments without a graphical backend.");;
     print (PStr "You can still examine the 'counts' dictionary directly.")).

(** Lines 89-94. *)
Definition build_qc_ghz : Py nat :=
  print (PStr (nl ++ "--- Creating a 3-Qubit GHZ State Circuit ---"));;
  qc_ghz ← QuantumCircuit_ 3 3;
  h qc_ghz 0;;
  cx qc_ghz 0 1;;
  cx qc_ghz 0 2;;
  measure qc_ghz [0; 1; 2] [0; 1; 2];;
  mret qc_ghz.

(** Lines 96-99: the handle [simulator] of section 5 is used again. *)
Definition simulate_ghz (simulator qc_ghz : nat) : Py (nat * Counts) :=
  transpiled_qc_ghz ← transpile qc_ghz simulator;
  job_ghz ← run simulator transpiled_qc_ghz num_shots;
  result_ghz ← result job_ghz;
  counts_ghz ← get_counts result_ghz qc_ghz;
  mret (transpiled_qc_ghz, counts_ghz).

(** Lines 101-113. *)
Definition visualize_ghz (qc_ghz : nat) (counts_ghz : Counts) : Py unit :=
  print (PStr (nl ++ "--- 3-Qubit GHZ State Circuit Diagram ---"));;
  d ← draw qc_ghz; print d;;
  print (PStr (nl ++ "--- 3-Qubit GHZ State Measurement Outcomes (Simulated "
                  ++ pretty num_shots ++ " shots) ---"));;
  print (PCounts counts_ghz);;
  try_except
    (plot_histogram counts_ghz "Measurement Outcomes of 3-Qubit GHZ State";;
     plt_tight_layout;;
     plt_show)
    (λ e,
     print (PStr (nl ++ "Could not display GHZ histogram plot. Error: " ++ e))).

(** The module-level names the script has bound when it ends. *)
Record Globals : Type := mkGlobals {
  qc : nat;
  simulator : nat;
  transpiled_qc : nat;
  counts : Counts;
  qc_ghz : nat;
  transpiled_qc_ghz : nat;
  counts_ghz : Counts
}.

Definition script : Py Globals :=
  qc ← build_qc;
  '(simulator, transpiled_qc, counts) ← simulate qc;
  visualize qc counts;;
  qc_ghz ← build_qc_ghz;
  '(transpiled_qc_ghz, counts_ghz) ← simulate_ghz simulator qc_ghz;
  visualize_ghz qc_ghz counts_ghz;;
  mret (mkGlobals qc simulator transpiled_qc counts
                  qc_ghz transpiled_qc_ghz counts_ghz).

End TwoQubit.

(** ** The 3-qubit script *)

Module ThreeQubit.

Definition num_shots : nat := 1024.

Definition num_ghz_qubits : Z := 3.

(** Sections 3-6 (lines 36-64). *)
Definition build_qc_ghz : Py nat :=
  qc_ghz ← QuantumCircuit_ num_ghz_qubits num_ghz_qubits;
  h qc_ghz 0;;
  cx qc_ghz 0 1;;
  cx qc_ghz 0 2;;
  measure qc_ghz [0; 1; 2] [0; 1; 2];;
  mret qc_ghz.

(** Section 7 (lines 68-79). *)
Definition simulate_ghz (simulator qc_ghz : nat) : Py (nat * Counts) :=
  transpiled_qc_ghz ← transpile qc_ghz simulator;
  job_ghz ← run simulator transpiled_qc_ghz num_shots;
  result_ghz ← result job_ghz;
  counts_ghz ← get_counts result_ghz qc_ghz;
  mret (transpiled_qc_ghz, counts_ghz).

(** Section 8 (lines 84-105). *)
Definition visualize_ghz (qc_ghz : nat) (counts_ghz : Counts) : Py unit :=
  print (PStr (nl ++ "--- 3-Qubit GHZ State Circuit Diagram ---"));;
  d ← draw qc_ghz; print d;;
  print (PStr (nl ++ "--- 3-Qubit GHZ State Measurement Outcomes (Simulated "
                  ++ pretty num_shots ++ " shots) ---"));;
  print (PCounts counts_ghz);;
  try_except
    (plot_histogram counts_ghz "Measurement Outcomes of 3-Qubit GHZ State";;
     plt_tight_layout;;
     plt_show;;
     print (PStr (nl ++ "Successfully displayed GHZ state histogram plot.")))
    (λ e,
     print (PStr (nl ++ "Could not display GHZ histogram plot. Error: " ++ e));;
     print (PStr "This might happen in environments without a graphical backend for matplotlib.");;
     print (PStr "You can still examine the 'counts_ghz' dictionary directly in the console.")).

Record Globals : Type := mkGlobals {
  simulator : nat;
  qc_ghz : nat;
  transpiled_qc_ghz : nat;
  counts_ghz : Counts
}.

(** Section 1 (line 23) comes first: the backend is looked up before the
    circuit is built. *)
Definition script : Py Globals :=
  simulator ← Aer_get_backend "qasm_simulator";
  qc_ghz ← build_qc_ghz;
  '(transpiled_qc_ghz, counts_ghz) ← simulate_ghz simulator qc_ghz;
  visualize_ghz qc_ghz counts_ghz;;
  mret (mkGlobals simulator qc_ghz transpiled_qc_ghz counts_ghz).

End ThreeQubit.

(** ** The circuits the scripts are expected to hold *)

Definition bell_circuit : QuantumCircuit :=
  {| circ_num_qubits := 2; circ_num_clbits := 2;
     circ_data := [HGate 0; CXGate 0 1; MeasureOp 0 0; MeasureOp 1 1] |}.

Definition ghz_circuit : QuantumCircuit :=
  {| circ_num_qubits := 3; circ_num_clbits := 3;
     circ_data := [HGate 0; CXGate 0 1; CXGate 0 2;
                   MeasureOp 0 0; MeasureOp 1 1; MeasureOp 2 2] |}.

(** ** The parameterised builder of the specification *)

(** The error names of the specification. *)
Inductive SpecError : Type :=
  | InvalidWidth
  | BackendUnavailable
  | VisualizationFailure.

(** Python's [range(lo, hi)]. *)
Definition Zrange (lo hi : Z) : list Z := seqZ lo (hi - lo).

(** Modelled from the spec: [build_ghz_circuit(n)], which the scripts do not
    define as a function; they spell out the widths 2 and 3.  A circuit with
    [n] qubits and [n] classical slots: append Hadamard(qubit 0); for each
    qubit [i] in 1..n-1 append Controlled-NOT(control 0, target i); bind qubit
    [i] to slot [i] for all [i].  The only error is [InvalidWidth], when
    [n < 1]. *)
Definition build_ghz_circuit (n : Z) : SpecError + QuantumCircuit :=
  if n <? 1 then inl InvalidWidth
  else
    let c0 := new_circuit n n in
    let c1 := circ_h 0 c0 in
    let c2 := foldl (λ c i, circ_cx 0 i c) c1 (Zrange 1 n) in
    inr (foldl (λ c i, append (MeasureOp i i) c) c2 (Zrange 0 n)).

(** ** What a run of the plotting calls can look like *)

(** [rendering e hist counts title attempted r]: from history [hist], the calls
    [plot_histogram(counts, title)], [plt.tight_layout()], [plt.show()] are
    attempted in this order up to the first that raises; [attempted] lists the
    calls made and [r] is the message of the exception, if any. *)
Inductive rendering (e : Env) (hist : list Event) (counts : Counts)
    (title : string) : list Event → option string → Prop :=
  | render_plot_raises msg :
      plot_histogram_fails e (hist ++ [EPlotHistogram counts title]) = Some msg →
      rendering e hist counts title [EPlotHistogram counts title] (Some msg)
  | render_layout_raises msg :
      plot_histogram_fails e (hist ++ [EPlotHistogram counts title]) = None →
      tight_layout_fails e (hist ++ [EPlotHistogram counts title; ETightLayout])
        = Some msg →
      rendering e hist counts title
        [EPlotHistogram counts title; ETightLayout] (Some msg)
  | render_show_raises msg :
      plot_histogram_fails e (hist ++ [EPlotHistogram counts title]) = None →
      tight_layout_fails e (hist ++ [EPlotHistogram counts title; ETightLayout])
        = None →
      show_fails e (hist ++ [EPlotHistogram counts title; ETightLayout; EShow])
        = Some msg →
      rendering e hist counts title
        [EPlotHistogram counts title; ETightLayout; EShow] (Some msg)
  | render_done :
      plot_histogram_fails e (hist ++ [EPlotHistogram counts title]) = None →
      tight_layout_fails e (hist ++ [EPlotHistogram counts title; ETightLayout])
        = None →
      show_fails e (hist ++ [EPlotHistogram counts title; ETightLayout; EShow])
        = None →
      rendering e hist counts title
        [EPlotHistogram counts title; ETightLayout; EShow] None.

Definition is_render (ev : Event) : bool :=
  match ev with
  | EPlotHistogram _ _ | ETightLayout | EShow => true
  | _ => false
  end.





Definition add_trace (σ : State) (evs : list Event) : State :=
  {| heap := heap σ; next_id := next_id σ; trace := trace σ ++ evs |}.

(** ** The traces the scripts are expected to leave *)

Definition bell_title : string := "Measurement Outcomes of Entangled Qubits".
Definition ghz_title : string := "Measurement Outcomes of 3-Qubit GHZ State".

Definition bell_report (c : QuantumCircuit) (counts : Counts) : list Event :=
  [EPrint (PStr "--- Quantum Circuit Diagram ---");
   EPrint (PDiagram c);
   EPrint (PStr (nl ++ "--- Measurement Outcomes (Simulated "
                    ++ pretty TwoQubit.num_shots ++ " shots) ---"));
   EPrint (PCounts counts)].

Definition bell_warning (msg : string) : Event :=
  EPrint (PStr (nl ++ "Could not display histogram plot. Error: " ++ msg)).

Definition bell_closing (r : option string) : list Event :=
  match r with
  | None => [EPrint (PStr (nl ++ "Successfully displayed histogram plot."))]
  | Some msg =>
      [bell_warning msg;
       EPrint (PStr "This might happen in environments without a graphical backend.");
       EPrint (PStr "You can still examine the 'counts' dictionary directly.")]
  end.

Definition ghz_report (c : QuantumCircuit) (counts : Counts) : list Event :=
  [EPrint (PStr (nl ++ "--- 3-Qubit GHZ State Circuit Diagram ---"));
   EPrint (PDiagram c);
   EPrint (PStr (nl ++ "--- 3-Qubit GHZ State Measurement Outcomes (Simulated "
                    ++ pretty ThreeQubit.num_shots ++ " shots) ---"));
   EPrint (PCounts counts)].

Definition ghz_warning (msg : string) : Event :=
  EPrint (PStr (nl ++ "Could not display GHZ histogram plot. Error: " ++ msg)).

(** The 2-qubit script prints one line when the GHZ histogram fails and
    nothing when it succeeds. *)
Definition ghz2_closing (r : option string) : list Event :=
  match r with
  | None => []
  | Some msg => [ghz_warning msg]
  end.

Definition ghz3_closing (r : option string) : list Event :=
  match r with
  | None =>
      [EPrint (PStr (nl ++ "Successfully displayed GHZ state histogram plot."))]
  | Some msg =>
      [ghz_warning msg;
       EPrint (PStr "This might happen in environments without a graphical backend for matplotlib.");
       EPrint (PStr "You can still examine the 'counts_ghz' dictionary directly in the console.")]
  end.

(** One pipeline on backend handle [b], started at history [hist]: transpile,
    run, and the frequency table. *)
Definition transpiled_of (e : Env) (hist : list Event) (c : QuantumCircuit)
    : QuantumCircuit :=
  transpile_result e hist c.

Definition counts_of (e : Env) (hist : list Event) (c : QuantumCircuit)
    (b shots : nat) : Counts :=
  tally (sample e (hist ++ [ETranspile c b]) (transpiled_of e hist c) shots).

Definition pipeline_events (e : Env) (hist : list Event) (c : QuantumCircuit)
    (b shots : nat) : list Event :=
  [ETranspile c b; ERun (transpiled_of e hist c) b shots].

(** The 2-qubit script: the circuit is object 0, the backend handle object 1. *)
Definition bell_counts (e : Env) : Counts :=
  counts_of e [EGetBackend "qasm_simulator" 1] bell_circuit 1 TwoQubit.num_shots.

Definition bell_events (e : Env) : list Event :=
  EGetBackend "qasm_simulator" 1
  :: pipeline_events e [EGetBackend "qasm_simulator" 1] bell_circuit 1
       TwoQubit.num_shots
  ++ bell_report bell_circuit (bell_counts e).

Definition ghz2_start (e : Env) (att1 : list Event) (r1 : option string)
    : list Event :=
  bell_events e ++ att1 ++ bell_closing r1 ++
  [EPrint (PStr (nl ++ "--- Creating a 3-Qubit GHZ State Circuit ---"))].

Definition ghz2_counts (e : Env) (att1 : list Event) (r1 : option string)
    : Counts :=
  counts_of e (ghz2_start e att1 r1) ghz_circuit 1 TwoQubit.num_shots.

Definition ghz2_events (e : Env) (att1 : list Event) (r1 : option string)
    : list Event :=
  EPrint (PStr (nl ++ "--- Creating a 3-Qubit GHZ State Circuit ---"))
  :: pipeline_events e (ghz2_start e att1 r1) ghz_circuit 1 TwoQubit.num_shots
  ++ ghz_report ghz_circuit (ghz2_counts e att1 r1).

(** The 3-qubit script: the backend handle is object 0, the circuit object 1. *)
Definition ghz3_counts (e : Env) : Counts :=
  counts_of e [EGetBackend "qasm_simulator" 0] ghz_circuit 0
    ThreeQubit.num_shots.

Definition ghz3_events (e : Env) : list Event :=
  EGetBackend "qasm_simulator" 0
  :: pipeline_events e [EGetBackend "qasm_simulator" 0] ghz_circuit 0
       ThreeQubit.num_shots
  ++ ghz_report ghz_circuit (ghz3_counts e).

(** What the 2-qubit script has bound and stored when it ends, and the trace
    it leaves, given how the two renderings went. *)
Definition script2_globals (e : Env) (att1 : list Event) (r1 : option string)
    : TwoQubit.Globals :=
  {| TwoQubit.qc := 0%nat;
     TwoQubit.simulator := 1%nat;
     TwoQubit.transpiled_qc := 2%nat;
     TwoQubit.counts := bell_counts e;
     TwoQubit.qc_ghz := 3%nat;
     TwoQubit.transpiled_qc_ghz := 4%nat;
     TwoQubit.counts_ghz := ghz2_counts e att1 r1 |}.

Definition script2_heap (e : Env) (att1 : list Event) (r1 : option string)
    : gmap nat QuantumCircuit :=
  <[4%nat := transpiled_of e (ghz2_start e att1 r1) ghz_circuit]>
    (<[3%nat := ghz_circuit]>
       (<[2%nat := transpiled_of e [EGetBackend "qasm_simulator" 1] bell_circuit]>
          (<[0%nat := bell_circuit]> ∅))).

Definition ghz2_hist (e : Env) (att1 : list Event) (r1 : option string)
    : list Event :=
  bell_events e ++ att1 ++ bell_closing r1 ++ ghz2_events e att1 r1.

Definition script2_trace (e : Env) (att1 : list Event) (r1 : option string)
    (att2 : list Event) (r2 : option string) : list Event :=
  ghz2_hist e att1 r1 ++ att2 ++ ghz2_closing r2.

Definition script2_state (e : Env) (att1 : list Event) (r1 : option string)
    (att2 : list Event) (r2 : option string) : State :=
  {| heap := script2_heap e att1 r1; next_id := 5%nat;
     trace := script2_trace e att1 r1 att2 r2 |}.

(** The same for the 3-qubit script. *)
Definition script3_globals (e : Env) : ThreeQubit.Globals :=
  {| ThreeQubit.simulator := 0%nat;
     ThreeQubit.qc_ghz := 1%nat;
     ThreeQubit.transpiled_qc_ghz := 2%nat;
     ThreeQubit.counts_ghz := ghz3_counts e |}.

Definition script3_state (e : Env) (att : list Event) (r : option string)
    : State :=
  {| heap := <[2%nat := transpiled_of e [EGetBackend "qasm_simulator" 0]
                          ghz_circuit]>
               (<[1%nat := ghz_circuit]> ∅);
     next_id := 3%nat;
     trace := ghz3_events e ++ att ++ ghz3_closing r |}.

(** ** Two concrete worlds *)

(** Every call succeeds; transpiling changes nothing; the shots alternate
    between all zeros and all ones. *)
Definition all_bits (b : string) (c : QuantumCircuit) : string :=
  foldr (λ _ acc, String.append b acc) EmptyString
        (seq 0 (Z.to_nat (circ_num_clbits c))).

Definition desktop : Env :=
  {| get_backend_fails := λ _ _, None;
     transpile_result := λ _ c, c;
     shot_outcome := λ _ c i, if Nat.even i then all_bits "0" c else all_bits "1" c;
     plot_histogram_fails := λ _, None;
     tight_layout_fails := λ _, None;
     show_fails := λ _, None |}.

(** The same, without a display: [plot_histogram] raises. *)
Definition no_display : string :=
  "no display name and no $DISPLAY environment variable".

Definition headless : Env :=
  {| get_backend_fails := λ _ _, None;
     transpile_result := λ _ c, c;
     shot_outcome := λ _ c i, if Nat.even i then all_bits "0" c else all_bits "1" c;
     plot_histogram_fails := λ _, Some no_display;
     tight_layout_fails := λ _, None;
     show_fails := λ _, None |}.

(** No backend can be resolved: the lookup raises. *)
Definition backend_not_found : string := "No backend matches the criteria".

Definition offline : Env :=
  {| get_backend_fails := λ _ _, Some backend_not_found;
     transpile_result := λ _ c, c;
     shot_outcome := λ _ c i, if Nat.even i then all_bits "0" c else all_bits "1" c;
     plot_histogram_fails := λ _, None;
     tight_layout_fails := λ _, None;
     show_fails := λ _, None |}.

(** ** What to look for in a trace *)

(** The lines that close a successful plot (line 80 of the 2-qubit script,
    line 98 of the 3-qubit script). *)
Definition bell_success : Event :=
  EPrint (PStr (nl ++ "Successfully displayed histogram plot.")).

Definition ghz3_success : Event :=
  EPrint (PStr (nl ++ "Successfully displayed GHZ state histogram plot.")).

(** Every call of [plot_histogram] in [tr] comes directly after the print of
    the very table it is given; [prev] is the event before [tr]. *)
Fixpoint plots_printed_tables (prev : option Event) (tr : list Event) : Prop :=
  match tr with
  | [] => True
  | ev :: tr' =>
      match ev with
      | EPlotHistogram c _ => prev = Some (EPrint (PCounts c))
      | _ => True
      end ∧ plots_printed_tables (Some ev) tr'
  end.

Definition is_plot_histogram (ev : Event) : bool :=
  match ev with EPlotHistogram _ _ => true | _ => false end.

Definition plot_calls (tr : list Event) : nat :=
  length (List.filter is_plot_histogram tr).

(** Every run in [tr] comes directly after a call of [transpile] for the same
    backend handle and executes the circuit that this call returned; [hist]
    is the history before [tr]. *)
Fixpoint runs_follow_transpile (e : Env) (hist tr : list Event) : Prop :=
  match tr with
  | [] => True
  | ev :: tr' =>
      match ev with
      | ERun c' b _ =>
          ∃ pre c, hist = pre ++ [ETranspile c b] ∧ c' = transpile_result e pre c
      | _ => True
      end ∧ runs_follow_transpile e (hist ++ [ev]) tr'
  end.

(** Qubit [i] is measured into classical slot [i], for every qubit of the
    circuit, and nothing else is measured. *)
Definition fully_measured (c : QuantumCircuit) : Prop :=
  bindings c = (λ i, (i, i)) <$> Zrange 0 (circ_num_qubits c).

(** Every circuit that [tr] shows being handed to [transpile] respects the
    invariant of the data model and is fully measured. *)
Definition transpiles_measured (tr : list Event) : Prop :=
  Forall (λ ev, match ev with
                | ETranspile c _ => well_formed c ∧ fully_measured c
                | _ => True
                end) tr.

(** The circuit diagrams a trace shows being printed, in order. *)
Definition diagram_of (ev : Event) : option QuantumCircuit :=
  match ev with EPrint (PDiagram c) => Some c | _ => None end.

Definition diagrams (tr : list Event) : list QuantumCircuit :=
  omap diagram_of tr.

(** ** Running the library calls *)

Lemma QuantumCircuit__run n m e σ :
  QuantumCircuit_ n m e σ =
    (Returned (next_id σ),
     {| heap := <[next_id σ := new_circuit n m]> (heap σ);
        next_id := S (next_id σ); trace := trace σ |}).
Proof. reflexivity. Qed.

Lemma update_run l f c e σ :
  heap σ !! l = Some c →
  update l f e σ =
    (Returned tt,
     {| heap := <[l := f c]> (heap σ); next_id := next_id σ; trace := trace σ |}).
Proof.
  intros Hl. unfold update, load, store, mbind, Py_bind, py_bind.
  rewrite Hl. reflexivity.
Qed.

Ltac py_cbn :=
  unfold mbind, mret, Py_bind, Py_ret, py_bind, py_ret;
  cbn [heap next_id trace].

Ltac py_update :=
  erewrite update_run by (cbn [heap]; apply lookup_insert_eq);
  py_cbn; rewrite ?insert_insert_eq.

Lemma build_qc_run e σ :
  TwoQubit.build_qc e σ =
    (Returned (next_id σ),
     {| heap := <[next_id σ := bell_circuit]> (heap σ);
        next_id := S (next_id σ); trace := trace σ |}).
Proof.
  unfold TwoQubit.build_qc, h, cx, measure. py_cbn.
  rewrite QuantumCircuit__run. py_cbn.
  do 3 py_update. reflexivity.
Qed.

Lemma build_qc_ghz_run e σ :
  ThreeQubit.build_qc_ghz e σ =
    (Returned (next_id σ),
     {| heap := <[next_id σ := ghz_circuit]> (heap σ);
        next_id := S (next_id σ); trace := trace σ |}).
Proof.
  unfold ThreeQubit.build_qc_ghz, h, cx, measure. py_cbn.
  rewrite QuantumCircuit__run. py_cbn.
  do 4 py_update. reflexivity.
Qed.

Lemma build_qc_ghz_run2 e σ :
  TwoQubit.build_qc_ghz e σ =
    (Returned (next_id σ),
     {| heap := <[next_id σ := ghz_circuit]> (heap σ);
        next_id := S (next_id σ);
        trace := trace σ ++
          [EPrint (PStr (nl ++ "--- Creating a 3-Qubit GHZ State Circuit ---"))] |}).
Proof.
  unfold TwoQubit.build_qc_ghz, h, cx, measure, print, emit. py_cbn.
  rewrite QuantumCircuit__run. py_cbn.
  do 4 py_update. reflexivity.
Qed.

Ltac norm_trace :=
  unfold add_trace; cbn [heap next_id trace];
  repeat rewrite <- app_assoc; cbn [app].

Ltac norm_expected :=
  unfold script2_globals, script2_state, script2_heap, script2_trace,
    script3_globals, script3_state, ghz2_hist, ghz2_events, ghz2_counts,
    ghz2_start, ghz3_events, ghz3_counts, bell_events, bell_counts,
    pipeline_events, bell_report, ghz_report;
  norm_trace.

Lemma Aer_get_backend_run name e σ :
  get_backend_fails e (trace σ) name = None →
  Aer_get_backend name e σ =
    (Returned (next_id σ),
     {| heap := heap σ; next_id := S (next_id σ);
        trace := trace σ ++ [EGetBackend name (next_id σ)] |}).
Proof.
  intros Hok. unfold Aer_get_backend, ask. py_cbn. rewrite Hok. reflexivity.
Qed.

Lemma Aer_get_backend_raises name msg e σ :
  get_backend_fails e (trace σ) name = Some msg →
  Aer_get_backend name e σ = (Raised msg, σ).
Proof.
  intros Hno. unfold Aer_get_backend, ask. py_cbn. rewrite Hno. reflexivity.
Qed.

Lemma transpile_run qc b c e σ :
  heap σ !! qc = Some c →
  transpile qc b e σ =
    (Returned (next_id σ),
     {| heap := <[next_id σ := transpiled_of e (trace σ) c]> (heap σ);
        next_id := S (next_id σ);
        trace := trace σ ++ [ETranspile c b] |}).
Proof.
  intros Hl. unfold transpile, load, ask. py_cbn. rewrite Hl. reflexivity.
Qed.

Lemma run_run b circ shots c e σ :
  heap σ !! circ = Some c →
  run b circ shots e σ =
    (Returned (sample e (trace σ) c shots), add_trace σ [ERun c b shots]).
Proof.
  intros Hl. unfold run, load, ask. py_cbn. rewrite Hl. reflexivity.
Qed.

Lemma get_counts_run r qc e σ :
  is_Some (heap σ !! qc) →
  get_counts r qc e σ = (Returned (tally r), σ).
Proof.
  intros [c Hl]. unfold get_counts, load. py_cbn. rewrite Hl. reflexivity.
Qed.

(** Transpile, run, result, get_counts: lines 50-62 and 96-99 of the 2-qubit
    script, lines 68-79 of the 3-qubit script. *)
Lemma pipeline_run qc b shots c e σ :
  heap σ !! qc = Some c →
  (transpiled ← transpile qc b;
   job ← run b transpiled shots;
   res ← result job;
   counts ← get_counts res qc;
   mret (transpiled, counts)) e σ =
    (Returned (next_id σ, counts_of e (trace σ) c b shots),
     {| heap := <[next_id σ := transpiled_of e (trace σ) c]> (heap σ);
        next_id := S (next_id σ);
        trace := trace σ ++ pipeline_events e (trace σ) c b shots |}).
Proof.
  intros Hl. unfold mbind at 1, Py_bind, py_bind.
  rewrite (transpile_run _ _ _ _ _ Hl).
  unfold mbind at 1. erewrite run_run by (cbn [heap]; apply lookup_insert_eq).
  unfold result. py_cbn.
  rewrite get_counts_run.
  - unfold counts_of, pipeline_events. norm_trace. reflexivity.
  - norm_trace. rewrite lookup_insert. case_decide; [eauto | rewrite Hl; eauto].
Qed.

Lemma external_ok ev fails e σ :
  fails e (trace σ ++ [ev]) = None →
  external ev fails e σ = (Returned tt, add_trace σ [ev]).
Proof.
  intros Hok. unfold external, emit, ask. py_cbn. rewrite Hok. reflexivity.
Qed.

Lemma external_raises ev fails msg e σ :
  fails e (trace σ ++ [ev]) = Some msg →
  external ev fails e σ = (Raised msg, add_trace σ [ev]).
Proof.
  intros Hno. unfold external, emit, ask. py_cbn. rewrite Hno. reflexivity.
Qed.

(** The three plotting calls in sequence, followed by anything. *)
Lemma render_run (k : Py unit) counts title att r e σ :
  rendering e (trace σ) counts title att r →
  (plot_histogram counts title;; plt_tight_layout;; plt_show;; k) e σ =
    match r with
    | None => k e (add_trace σ att)
    | Some msg => (Raised msg, add_trace σ att)
    end.
Proof.
  unfold plot_histogram, plt_tight_layout, plt_show.
  intros Hr. destruct Hr as [msg H1 | msg H1 H2 | msg H1 H2 H3 | H1 H2 H3].
  - unfold mbind at 1, Py_bind, py_bind.
    rewrite (external_raises _ _ _ _ _ H1). reflexivity.
  - unfold mbind at 1, Py_bind, py_bind.
    rewrite (external_ok _ _ _ _ H1).
    unfold mbind at 1.
    erewrite external_raises by (norm_trace; exact H2).
    norm_trace. reflexivity.
  - unfold mbind at 1, Py_bind, py_bind.
    rewrite (external_ok _ _ _ _ H1).
    unfold mbind at 1.
    erewrite external_ok by (norm_trace; exact H2).
    unfold mbind at 1.
    erewrite external_raises by (norm_trace; exact H3).
    norm_trace. reflexivity.
  - unfold mbind at 1, Py_bind, py_bind.
    rewrite (external_ok _ _ _ _ H1).
    unfold mbind at 1.
    erewrite external_ok by (norm_trace; exact H2).
    unfold mbind at 1.
    erewrite external_ok by (norm_trace; exact H3).
    norm_trace. reflexivity.
Qed.

Lemma render_only_run counts title att r e σ :
  rendering e (trace σ) counts title att r →
  (plot_histogram counts title;; plt_tight_layout;; plt_show) e σ =
    (match r with None => Returned tt | Some msg => Raised msg end,
     add_trace σ att).
Proof.
  unfold plot_histogram, plt_tight_layout, plt_show.
  intros Hr. destruct Hr as [msg H1 | msg H1 H2 | msg H1 H2 H3 | H1 H2 H3].
  - unfold mbind at 1, Py_bind, py_bind.
    rewrite (external_raises _ _ _ _ _ H1). reflexivity.
  - unfold mbind at 1, Py_bind, py_bind.
    rewrite (external_ok _ _ _ _ H1).
    unfold mbind at 1.
    erewrite external_raises by (norm_trace; exact H2).
    norm_trace. reflexivity.
  - unfold mbind at 1, Py_bind, py_bind.
    rewrite (external_ok _ _ _ _ H1).
    unfold mbind at 1.
    erewrite external_ok by (norm_trace; exact H2).
    erewrite external_raises by (norm_trace; exact H3).
    norm_trace. reflexivity.
  - unfold mbind at 1, Py_bind, py_bind.
    rewrite (external_ok _ _ _ _ H1).
    unfold mbind at 1.
    erewrite external_ok by (norm_trace; exact H2).
    erewrite external_ok by (norm_trace; exact H3).
    norm_trace. reflexivity.
Qed.

(** The environment decides how a rendering goes: one always exists, and it is
    the only one. *)
Lemma rendering_total e hist counts title :
  ∃ att r, rendering e hist counts title att r.
Proof.
  destruct (plot_histogram_fails e (hist ++ [EPlotHistogram counts title]))
    as [m1|] eqn:H1;
    [eexists _, _; apply (render_plot_raises _ _ _ _ _ H1)|].
  destruct (tight_layout_fails e
              (hist ++ [EPlotHistogram counts title; ETightLayout]))
    as [m2|] eqn:H2;
    [eexists _, _; apply (render_layout_raises _ _ _ _ _ H1 H2)|].
  destruct (show_fails e
              (hist ++ [EPlotHistogram counts title; ETightLayout; EShow]))
    as [m3|] eqn:H3.
  - eexists _, _. apply (render_show_raises _ _ _ _ _ H1 H2 H3).
  - eexists _, _. apply (render_done _ _ _ _ H1 H2 H3).
Qed.

Lemma rendering_functional e hist counts title att r att' r' :
  rendering e hist counts title att r →
  rendering e hist counts title att' r' →
  att = att' ∧ r = r'.
Proof.
  intros H H'. destruct H; destruct H'; split; congruence.
Qed.

Lemma rendering_attempts e hist counts title att r :
  rendering e hist counts title att r →
  forallb is_render att = true ∧ att ≠ [].
Proof. intros H. destruct H; split; done. Qed.

Lemma bind_returned {A B} (m : Py A) (f : A → Py B) a e σ σ' :
  m e σ = (Returned a, σ') → (m ≫= f) e σ = f a e σ'.
Proof. intros H. unfold mbind, Py_bind, py_bind. rewrite H. reflexivity. Qed.

Lemma bind_raised {A B} (m : Py A) (f : A → Py B) msg e σ σ' :
  m e σ = (Raised msg, σ') → (m ≫= f) e σ = (Raised msg, σ').
Proof. intros H. unfold mbind, Py_bind, py_bind. rewrite H. reflexivity. Qed.

Lemma print_run p e σ : print p e σ = (Returned tt, add_trace σ [EPrint p]).
Proof. reflexivity. Qed.

Lemma draw_run qc c e σ :
  heap σ !! qc = Some c → draw qc e σ = (Returned (PDiagram c), σ).
Proof. intros Hl. unfold draw, load. py_cbn. rewrite Hl. reflexivity. Qed.

Lemma try_render (k : Py unit) handler counts title att r e σ :
  rendering e (trace σ) counts title att r →
  try_except (plot_histogram counts title;; plt_tight_layout;; plt_show;; k)
             handler e σ =
    match r with
    | None => try_except k handler e (add_trace σ att)
    | Some msg => handler msg e (add_trace σ att)
    end.
Proof.
  intros Hr. unfold try_except. rewrite (render_run _ _ _ _ _ _ _ Hr).
  destruct r; reflexivity.
Qed.

Lemma try_render_only handler counts title att r e σ :
  rendering e (trace σ) counts title att r →
  try_except (plot_histogram counts title;; plt_tight_layout;; plt_show)
             handler e σ =
    match r with
    | None => (Returned tt, add_trace σ att)
    | Some msg => handler msg e (add_trace σ att)
    end.
Proof.
  intros Hr. unfold try_except. rewrite (render_only_run _ _ _ _ _ _ Hr).
  destruct r; reflexivity.
Qed.

Ltac py_prints := repeat (erewrite bind_returned by apply print_run).

(** Section 6 of the 2-qubit script. *)
Lemma bell_visualize_run qc c counts att r e σ :
  heap σ !! qc = Some c →
  rendering e (trace σ ++ bell_report c counts) counts bell_title att r →
  TwoQubit.visualize qc counts e σ =
    (Returned tt, add_trace σ (bell_report c counts ++ att ++ bell_closing r)).
Proof.
  intros Hl Hr. unfold TwoQubit.visualize.
  py_prints.
  erewrite bind_returned by (apply draw_run; exact Hl).
  py_prints.
  erewrite try_render
    by (unfold bell_report in Hr; norm_trace; exact Hr).
  destruct r; unfold bell_report, bell_closing, bell_warning.
  - py_prints. rewrite print_run. norm_trace. reflexivity.
  - unfold try_except. rewrite print_run. norm_trace. reflexivity.
Qed.

(** Lines 101-113 of the 2-qubit script. *)
Lemma ghz2_visualize_run qc c counts att r e σ :
  heap σ !! qc = Some c →
  rendering e (trace σ ++ ghz_report c counts) counts ghz_title att r →
  TwoQubit.visualize_ghz qc counts e σ =
    (Returned tt, add_trace σ (ghz_report c counts ++ att ++ ghz2_closing r)).
Proof.
  intros Hl Hr. unfold TwoQubit.visualize_ghz.
  py_prints.
  erewrite bind_returned by (apply draw_run; exact Hl).
  py_prints.
  erewrite try_render_only
    by (unfold ghz_report in Hr; norm_trace; exact Hr).
  destruct r; unfold ghz_report, ghz2_closing, ghz_warning.
  - rewrite print_run. norm_trace. reflexivity.
  - norm_trace. rewrite app_nil_r. reflexivity.
Qed.

(** Section 8 of the 3-qubit script. *)
Lemma ghz3_visualize_run qc c counts att r e σ :
  heap σ !! qc = Some c →
  rendering e (trace σ ++ ghz_report c counts) counts ghz_title att r →
  ThreeQubit.visualize_ghz qc counts e σ =
    (Returned tt, add_trace σ (ghz_report c counts ++ att ++ ghz3_closing r)).
Proof.
  intros Hl Hr. unfold ThreeQubit.visualize_ghz.
  py_prints.
  erewrite bind_returned by (apply draw_run; exact Hl).
  py_prints.
  erewrite try_render
    by (unfold ghz_report in Hr; norm_trace; exact Hr).
  destruct r; unfold ghz_report, ghz3_closing, ghz_warning.
  - py_prints. rewrite print_run. norm_trace. reflexivity.
  - unfold try_except. rewrite print_run. norm_trace. reflexivity.
Qed.

(** Section 5 of the 2-qubit script. *)
Lemma simulate_run qc c e σ :
  heap σ !! qc = Some c →
  get_backend_fails e (trace σ) "qasm_simulator" = None →
  TwoQubit.simulate qc e σ =
    (Returned
       (next_id σ, S (next_id σ),
        counts_of e (trace σ ++ [EGetBackend "qasm_simulator" (next_id σ)]) c
          (next_id σ) TwoQubit.num_shots),
     {| heap := <[S (next_id σ) :=
                    transpiled_of e
                      (trace σ ++ [EGetBackend "qasm_simulator" (next_id σ)]) c]>
                  (heap σ);
        next_id := S (S (next_id σ));
        trace := trace σ ++
          EGetBackend "qasm_simulator" (next_id σ)
          :: pipeline_events e
               (trace σ ++ [EGetBackend "qasm_simulator" (next_id σ)]) c
               (next_id σ) TwoQubit.num_shots |}).
Proof.
  intros Hl Hb. unfold TwoQubit.simulate.
  erewrite bind_returned by (apply Aer_get_backend_run; exact Hb).
  erewrite bind_returned by (apply transpile_run; exact Hl).
  erewrite bind_returned by (apply run_run; apply lookup_insert_eq).
  erewrite bind_returned by reflexivity.
  erewrite bind_returned.
  2:{ apply get_counts_run. norm_trace.
      rewrite lookup_insert. case_decide; [eauto | rewrite Hl; eauto]. }
  unfold counts_of, pipeline_events. norm_trace. reflexivity.
Qed.

Lemma script2_run e att1 r1 att2 r2 :
  get_backend_fails e [] "qasm_simulator" = None →
  rendering e (bell_events e) (bell_counts e) bell_title att1 r1 →
  rendering e (ghz2_hist e att1 r1) (ghz2_counts e att1 r1) ghz_title att2 r2 →
  TwoQubit.script e init_state =
    (Returned (script2_globals e att1 r1), script2_state e att1 r1 att2 r2).
Proof.
  intros Hb H1 H2. unfold TwoQubit.script.
  erewrite bind_returned by apply build_qc_run.
  erewrite bind_returned
    by (apply simulate_run; [apply lookup_insert_eq | exact Hb]).
  cbv beta iota. cbn [init_state heap next_id trace app].
  erewrite bind_returned.
  2:{ apply bell_visualize_run with (c := bell_circuit).
      - cbn [heap]. rewrite lookup_insert_ne by lia. apply lookup_insert_eq.
      - revert H1. norm_expected. intros H1. exact H1. }
  erewrite bind_returned by apply build_qc_ghz_run2.
  erewrite bind_returned.
  2:{ unfold TwoQubit.simulate_ghz. apply pipeline_run with (c := ghz_circuit).
      apply lookup_insert_eq. }
  cbv beta iota.
  erewrite bind_returned.
  2:{ apply ghz2_visualize_run with (c := ghz_circuit) (att := att2) (r := r2).
      - cbn [heap add_trace next_id]. rewrite lookup_insert_ne by lia.
        apply lookup_insert_eq.
      - revert H2. norm_expected. intros H2. exact H2. }
  unfold mret, Py_ret, py_ret. norm_expected. reflexivity.
Qed.

Lemma script3_run e att r :
  get_backend_fails e [] "qasm_simulator" = None →
  rendering e (ghz3_events e) (ghz3_counts e) ghz_title att r →
  ThreeQubit.script e init_state =
    (Returned (script3_globals e), script3_state e att r).
Proof.
  intros Hb Hr. unfold ThreeQubit.script.
  erewrite bind_returned by (apply Aer_get_backend_run; exact Hb).
  erewrite bind_returned by apply build_qc_ghz_run.
  cbn [init_state heap next_id trace app].
  erewrite bind_returned.
  2:{ unfold ThreeQubit.simulate_ghz. apply pipeline_run with (c := ghz_circuit).
      apply lookup_insert_eq. }
  cbv beta iota.
  erewrite bind_returned.
  2:{ apply ghz3_visualize_run with (c := ghz_circuit) (att := att) (r := r).
      - cbn [heap next_id]. rewrite lookup_insert_ne by lia.
        apply lookup_insert_eq.
      - revert Hr. norm_expected. intros Hr. exact Hr. }
  unfold mret, Py_ret, py_ret. norm_expected. reflexivity.
Qed.

(** With a backend, both scripts run to their end, however plotting goes. *)
Lemma script2_returns e :
  get_backend_fails e [] "qasm_simulator" = None →
  ∃ att1 r1 att2 r2,
    rendering e (bell_events e) (bell_counts e) bell_title att1 r1 ∧
    rendering e (ghz2_hist e att1 r1) (ghz2_counts e att1 r1) ghz_title att2 r2 ∧
    TwoQubit.script e init_state =
      (Returned (script2_globals e att1 r1), script2_state e att1 r1 att2 r2).
Proof.
  intros Hb.
  destruct (rendering_total e (bell_events e) (bell_counts e) bell_title)
    as (att1 & r1 & H1).
  destruct (rendering_total e (ghz2_hist e att1 r1) (ghz2_counts e att1 r1)
              ghz_title) as (att2 & r2 & H2).
  exists att1, r1, att2, r2. auto using script2_run.
Qed.

Lemma script3_returns e :
  get_backend_fails e [] "qasm_simulator" = None →
  ∃ att r,
    rendering e (ghz3_events e) (ghz3_counts e) ghz_title att r ∧
    ThreeQubit.script e init_state =
      (Returned (script3_globals e), script3_state e att r).
Proof.
  intros Hb.
  destruct (rendering_total e (ghz3_events e) (ghz3_counts e) ghz_title)
    as (att & r & Hr).
  exists att, r. auto using script3_run.
Qed.

(** Without a backend, both scripts stop at the lookup: nothing is printed. *)
Lemma script2_no_backend e msg :
  get_backend_fails e [] "qasm_simulator" = Some msg →
  ∃ σ, TwoQubit.script e init_state = (Raised msg, σ) ∧ trace σ = [].
Proof.
  intros Hb. eexists. unfold TwoQubit.script.
  erewrite bind_returned by apply build_qc_run.
  erewrite bind_raised.
  2:{ unfold TwoQubit.simulate.
      erewrite bind_raised by (apply Aer_get_backend_raises; exact Hb).
      reflexivity. }
  split; reflexivity.
Qed.

Lemma script3_no_backend e msg :
  get_backend_fails e [] "qasm_simulator" = Some msg →
  ∃ σ, ThreeQubit.script e init_state = (Raised msg, σ) ∧ trace σ = [].
Proof.
  intros Hb. eexists. unfold ThreeQubit.script.
  erewrite bind_raised by (apply Aer_get_backend_raises; exact Hb).
  split; reflexivity.
Qed.

(** ** Frequency tables add up *)

Lemma total_bump (m : Counts) (k : string) :
  total (<[k := S (default 0%nat (m !! k))]> m) = S (total m).
Proof.
  unfold total.
  assert (Hcomm : ∀ z1 z2 y : nat, (z1 + (z2 + y) = z2 + (z1 + y))%nat)
    by (intros; lia).
  destruct (m !! k) as [v|] eqn:Hk; cbn [default].
  - rewrite <- insert_delete_eq.
    rewrite map_fold_insert_L; [|intros; apply Hcomm|apply lookup_delete_eq].
    rewrite (map_fold_delete_L _ _ k v m);
      [unfold id; cbv beta; lia|intros; apply Hcomm|exact Hk].
  - rewrite map_fold_insert_L; [cbv beta; lia|intros; apply Hcomm|exact Hk].
Qed.

Lemma total_foldl (outcomes : list string) (m : Counts) :
  total (foldl (λ m k, <[k := S (default 0%nat (m !! k))]> m) m outcomes)
  = (total m + length outcomes)%nat.
Proof.
  revert m. induction outcomes as [|k outcomes IH]; intros m; cbn [foldl length].
  - lia.
  - rewrite IH, total_bump. lia.
Qed.

Lemma total_tally (outcomes : list string) :
  total (tally outcomes) = length outcomes.
Proof.
  unfold tally. rewrite total_foldl. unfold total. rewrite map_fold_empty. lia.
Qed.

Lemma length_sample e hist c shots : length (sample e hist c shots) = shots.
Proof. unfold sample. rewrite length_fmap. apply length_seq. Qed.

Lemma total_counts_of e hist c b shots :
  total (counts_of e hist c b shots) = shots.
Proof. unfold counts_of. rewrite total_tally. apply length_sample. Qed.

(** Every key of a table was the outcome of some shot. *)
Lemma tally_keys (outcomes : list string) (k : string) :
  is_Some (tally outcomes !! k) ↔ k ∈ outcomes.
Proof.
  unfold tally.
  assert (Hgen : ∀ m : Counts,
    is_Some (foldl (λ m k, <[k := S (default 0%nat (m !! k))]> m) m outcomes !! k)
    ↔ is_Some (m !! k) ∨ k ∈ outcomes).
  { induction outcomes as [|k' outcomes IH]; intros m; cbn [foldl].
    - rewrite elem_of_nil. tauto.
    - rewrite IH, elem_of_cons, lookup_insert.
      case_decide; subst.
      + split; [intros _; right; left; reflexivity | intros _; left; eauto].
      + split; intros [Hs|Hin];
          [left; exact Hs | right; right; exact Hin | left; exact Hs |].
        destruct Hin as [Heq|Hin]; [congruence | right; exact Hin]. }
  rewrite Hgen, lookup_empty. split; [intros [[? [=]]|Hin]; exact Hin | eauto].
Qed.

(** ** The parameterised builder *)

Lemma foldl_append (F : Z → Instruction) (l : list Z) (c : QuantumCircuit) :
  foldl (λ c i, append (F i) c) c l =
    {| circ_num_qubits := circ_num_qubits c;
       circ_num_clbits := circ_num_clbits c;
       circ_data := circ_data c ++ (F <$> l) |}.
Proof.
  revert c. induction l as [|i l IH]; intros c; cbn [foldl fmap list_fmap].
  - rewrite app_nil_r. destruct c; reflexivity.
  - rewrite IH. unfold append. cbn [circ_num_qubits circ_num_clbits circ_data].
    rewrite <- app_assoc. reflexivity.
Qed.

Lemma filter_fmap_all {A} (p : Instruction → bool) (F : A → Instruction) l :
  (∀ i, p (F i) = true) → List.filter p (F <$> l) = F <$> l.
Proof.
  intros Hp. induction l as [|i l IH]; cbn; [reflexivity|].
  rewrite Hp, IH. reflexivity.
Qed.

Lemma filter_fmap_none {A} (p : Instruction → bool) (F : A → Instruction) l :
  (∀ i, p (F i) = false) → List.filter p (F <$> l) = [].
Proof.
  intros Hp. induction l as [|i l IH]; cbn; [reflexivity|].
  rewrite Hp, IH. reflexivity.
Qed.

Lemma elem_of_Zrange lo hi i : i ∈ Zrange lo hi ↔ lo ≤ i < hi.
Proof. unfold Zrange. rewrite elem_of_seqZ. lia. Qed.

Lemma length_Zrange lo hi : length (Zrange lo hi) = Z.to_nat (hi - lo).
Proof. apply length_seqZ. Qed.

Lemma Zrange_lookup lo hi (k : nat) :
  (Z.of_nat k < hi - lo) → Zrange lo hi !! k = Some (lo + Z.of_nat k).
Proof. intros Hk. unfold Zrange. apply lookup_seqZ. lia. Qed.

Lemma build_ghz_circuit_ok n :
  1 ≤ n →
  build_ghz_circuit n =
    inr {| circ_num_qubits := n; circ_num_clbits := n;
           circ_data := HGate 0 :: (CXGate 0 <$> Zrange 1 n)
                        ++ ((λ i, MeasureOp i i) <$> Zrange 0 n) |}.
Proof.
  intros Hn. unfold build_ghz_circuit.
  destruct (Z.ltb_spec n 1) as [Hlt|_]; [lia|].
  change (λ (c : QuantumCircuit) (i : Z), circ_cx 0 i c)
    with (λ (c : QuantumCircuit) (i : Z), append (CXGate 0 i) c).
  rewrite (foldl_append (λ i, MeasureOp i i)), (foldl_append (CXGate 0)).
  reflexivity.
Qed.

Lemma gates_of_recipe n (cxs ms : list Z) :
  gates {| circ_num_qubits := n; circ_num_clbits := n;
           circ_data := HGate 0 :: (CXGate 0 <$> cxs)
                        ++ ((λ i, MeasureOp i i) <$> ms) |}
  = HGate 0 :: (CXGate 0 <$> cxs).
Proof.
  unfold gates. cbn [circ_data List.filter is_gate].
  rewrite List.filter_app, filter_fmap_all, filter_fmap_none by done.
  rewrite app_nil_r. reflexivity.
Qed.

Lemma bindings_of_recipe n (cxs ms : list Z) :
  bindings {| circ_num_qubits := n; circ_num_clbits := n;
              circ_data := HGate 0 :: (CXGate 0 <$> cxs)
                           ++ ((λ i, MeasureOp i i) <$> ms) |}
  = (λ i, (i, i)) <$> ms.
Proof.
  unfold bindings. cbn [circ_data omap list_omap]. rewrite omap_app.
  assert (H1 : omap (λ i, match i with MeasureOp q b => Some (q, b) | _ => None end)
                 (CXGate 0 <$> cxs) = []).
  { induction cxs as [|i l IH]; cbn; [reflexivity | exact IH]. }
  assert (H2 : omap (λ i, match i with MeasureOp q b => Some (q, b) | _ => None end)
                 ((λ i, MeasureOp i i) <$> ms) = (λ i, (i, i)) <$> ms).
  { induction ms as [|i l IH]; cbn; [reflexivity | rewrite IH; reflexivity]. }
  rewrite H1, H2. reflexivity.
Qed.

Lemma count_of_recipe n (cxs ms : list Z) :
  let c := {| circ_num_qubits := n; circ_num_clbits := n;
              circ_data := HGate 0 :: (CXGate 0 <$> cxs)
                           ++ ((λ i, MeasureOp i i) <$> ms) |} in
  count_instr is_hadamard c = 1%nat ∧ count_instr is_cnot c = length cxs.
Proof.
  unfold count_instr. cbn [circ_data List.filter is_hadamard is_cnot].
  rewrite !List.filter_app.
  rewrite (filter_fmap_none is_hadamard), (filter_fmap_none is_hadamard),
    (filter_fmap_all is_cnot), (filter_fmap_none is_cnot) by done.
  rewrite !app_nil_r, length_fmap. split; reflexivity.
Qed.

(** At width 2 the recipe is the Bell circuit of the 2-qubit script. *)
Lemma build_ghz_circuit_two : build_ghz_circuit 2 = inr bell_circuit.
Proof. reflexivity. Qed.

Lemma build_ghz_circuit_three : build_ghz_circuit 3 = inr ghz_circuit.
Proof. reflexivity. Qed.

(** The circuits of the scripts, and every circuit of the recipe, respect the
    invariant of the data model. *)
Lemma bell_circuit_well_formed : well_formed bell_circuit.
Proof.
  split.
  - unfold bell_circuit. cbn [circ_data].
    repeat apply Forall_cons_2; try apply Forall_nil_2; cbn; lia.
  - apply (NoDup_seqZ 0 2).
Qed.

Lemma ghz_circuit_well_formed : well_formed ghz_circuit.
Proof.
  split.
  - unfold ghz_circuit. cbn [circ_data].
    repeat apply Forall_cons_2; try apply Forall_nil_2; cbn; lia.
  - apply (NoDup_seqZ 0 3).
Qed.

Lemma build_ghz_circuit_well_formed n c :
  build_ghz_circuit n = inr c → well_formed c.
Proof.
  unfold build_ghz_circuit. destruct (Z.ltb_spec n 1) as [|Hn]; [discriminate|].
  intros Hc.
  pose proof (build_ghz_circuit_ok n Hn) as Hok.
  unfold build_ghz_circuit in Hok.
  destruct (Z.ltb_spec n 1) as [|_]; [lia|].
  rewrite Hok in Hc. injection Hc as <-. split.
  - cbn [circ_data]. apply Forall_cons_2; [cbn; lia|].
    apply Forall_app_2; apply Forall_fmap, Forall_forall;
      intros i Hi%elem_of_Zrange; cbn; lia.
  - rewrite bindings_of_recipe, <- list_fmap_compose.
    replace (snd ∘ (λ i : Z, (i, i)) <$> Zrange 0 n) with (Zrange 0 n)
      by (symmetry; apply list_fmap_id).
    apply NoDup_seqZ.
Qed.

(** ** The circuits the scripts build *)

(** C1: the Bell-circuit block of the 2-qubit script (lines 19-42) returns a
    circuit object with exactly 2 qubits and 2 classical slots whose
    instruction list is exactly Hadamard on qubit 0, then Controlled-NOT with
    control 0 and target 1, then the measurements of qubit 0 into slot 0 and
    of qubit 1 into slot 1, and nothing else; building it touches nothing
    outside the script. *)
Theorem bell_circuit_built (e : Env) (σ : State) :
  ∃ l σ' c,
    TwoQubit.build_qc e σ = (Returned l, σ') ∧
    heap σ' !! l = Some c ∧
    circ_num_qubits c = 2 ∧
    circ_num_clbits c = 2 ∧
    gates c = [HGate 0; CXGate 0 1] ∧
    bindings c = [(0, 0); (1, 1)] ∧
    circ_data c = [HGate 0; CXGate 0 1; MeasureOp 0 0; MeasureOp 1 1] ∧
    trace σ' = trace σ.
Proof.
  eexists _, _, bell_circuit. rewrite build_qc_run.
  split; [reflexivity|]. cbn [heap trace].
  split; [apply lookup_insert_eq|]. repeat split; reflexivity.
Qed.

(** C2: for every width n >= 1 the builder of the specification yields a
    circuit of n qubits and n classical slots whose gates are exactly one
    Hadamard on qubit 0 followed by the n-1 Controlled-NOTs with control 0 and
    targets 1..n-1 in order, with qubit i bound to classical slot i for
    i = 0..n-1 (n bindings, distinct slots) and nothing else; at n = 3 this is
    the circuit that the GHZ blocks of both scripts build. *)
Theorem ghz_builder_sequence (n : Z) :
  1 ≤ n →
  ∃ c,
    build_ghz_circuit n = inr c ∧
    circ_num_qubits c = n ∧
    circ_num_clbits c = n ∧
    gates c = HGate 0 :: (CXGate 0 <$> Zrange 1 n) ∧
    (∀ k : nat, Z.of_nat k < n - 1 →
       gates c !! S k = Some (CXGate 0 (1 + Z.of_nat k))) ∧
    count_instr is_hadamard c = 1%nat ∧
    count_instr is_cnot c = Z.to_nat (n - 1) ∧
    bindings c = (λ i, (i, i)) <$> Zrange 0 n ∧
    length (bindings c) = Z.to_nat n ∧
    NoDup (snd <$> bindings c) ∧
    circ_data c = gates c ++ ((λ qb, MeasureOp qb.1 qb.2) <$> bindings c) ∧
    (n = 3 → ∀ e σ,
       (ThreeQubit.build_qc_ghz e σ).1 = Returned (next_id σ) ∧
       heap (ThreeQubit.build_qc_ghz e σ).2 !! next_id σ = Some c ∧
       (TwoQubit.build_qc_ghz e σ).1 = Returned (next_id σ) ∧
       heap (TwoQubit.build_qc_ghz e σ).2 !! next_id σ = Some c).
Proof.
  intros Hn. eexists. split; [apply build_ghz_circuit_ok; exact Hn|].
  rewrite gates_of_recipe, bindings_of_recipe.
  destruct (count_of_recipe n (Zrange 1 n) (Zrange 0 n)) as [Hh Hcx].
  cbv zeta in Hh, Hcx. rewrite Hh, Hcx. cbn [circ_num_qubits circ_num_clbits circ_data].
  repeat split.
  - intros k Hk.
    change ((CXGate 0 <$> Zrange 1 n) !! k = Some (CXGate 0 (1 + Z.of_nat k))).
    rewrite list_lookup_fmap.
    rewrite Zrange_lookup by lia. reflexivity.
  - rewrite length_Zrange. reflexivity.
  - rewrite length_fmap, length_Zrange. f_equal. lia.
  - rewrite <- list_fmap_compose.
    replace (snd ∘ (λ i : Z, (i, i)) <$> Zrange 0 n) with (Zrange 0 n)
      by (symmetry; apply list_fmap_id).
    apply NoDup_seqZ.
  - rewrite <- list_fmap_compose. reflexivity.
  - subst n. rewrite build_qc_ghz_run. reflexivity.
  - subst n. rewrite build_qc_ghz_run. cbn [snd heap].
    rewrite lookup_insert_eq. reflexivity.
  - subst n. rewrite build_qc_ghz_run2. reflexivity.
  - subst n. rewrite build_qc_ghz_run2. cbn [snd heap].
    rewrite lookup_insert_eq. reflexivity.
Qed.

Lemma ghz_builder_sequence_witness :
  1 ≤ 3 ∧
  ∃ c,
    build_ghz_circuit 3 = inr c ∧
    gates c = [HGate 0; CXGate 0 1; CXGate 0 2] ∧
    bindings c = [(0, 0); (1, 1); (2, 2)].
Proof.
  split; [lia|].
  destruct (ghz_builder_sequence 3 ltac:(lia))
    as (c & Hc & _ & _ & Hg & _ & _ & _ & Hb & _).
  exists c. split; [exact Hc|]. split; [exact Hg | exact Hb].
Defined.

(** C6: for every width n < 1 the builder of the specification fails with
    InvalidWidth, and InvalidWidth on a width below 1 is the only way it
    fails. *)
Theorem ghz_builder_invalid_width (n : Z) :
  n < 1 →
  build_ghz_circuit n = inl InvalidWidth ∧
  (∀ m err, build_ghz_circuit m = inl err → err = InvalidWidth ∧ m < 1).
Proof.
  intros Hn. split.
  - unfold build_ghz_circuit. destruct (Z.ltb_spec n 1); [reflexivity | lia].
  - intros m err. unfold build_ghz_circuit.
    destruct (Z.ltb_spec m 1); [|discriminate].
    intros [= <-]. split; [reflexivity | assumption].
Qed.

Lemma ghz_builder_invalid_width_witness :
  -2 < 1 ∧ build_ghz_circuit (-2) = inl InvalidWidth ∧
  build_ghz_circuit 0 = inl InvalidWidth.
Proof.
  split; [lia|]. split.
  - apply (ghz_builder_invalid_width (-2)). lia.
  - apply (ghz_builder_invalid_width 0). lia.
Defined.

(** C7: at width 1 the builder of the specification succeeds with a circuit
    of exactly one Hadamard, no Controlled-NOT and exactly one measurement
    binding. *)
Theorem ghz_builder_width_one :
  ∃ c,
    build_ghz_circuit 1 = inr c ∧
    circ_num_qubits c = 1 ∧
    circ_num_clbits c = 1 ∧
    circ_data c = [HGate 0; MeasureOp 0 0] ∧
    count_instr is_hadamard c = 1%nat ∧
    count_instr is_cnot c = 0%nat ∧
    bindings c = [(0, 0)] ∧
    length (bindings c) = 1%nat.
Proof. eexists. repeat split. Qed.

(** C9: the circuit object that the 2-qubit script builds at its end and the
    one that the 3-qubit script builds hold the same circuit when the scripts
    finish: 3 qubits, 3 classical slots, Hadamard on qubit 0, CNOT(0,1),
    CNOT(0,2), and qubit i measured into slot i for i = 0, 1, 2. *)
Theorem ghz_circuits_agree (e2 e3 : Env) :
  get_backend_fails e2 [] "qasm_simulator" = None →
  get_backend_fails e3 [] "qasm_simulator" = None →
  ∃ g2 σ2 g3 σ3 c,
    TwoQubit.script e2 init_state = (Returned g2, σ2) ∧
    ThreeQubit.script e3 init_state = (Returned g3, σ3) ∧
    heap σ2 !! TwoQubit.qc_ghz g2 = Some c ∧
    heap σ3 !! ThreeQubit.qc_ghz g3 = Some c ∧
    circ_num_qubits c = 3 ∧
    circ_num_clbits c = 3 ∧
    gates c = [HGate 0; CXGate 0 1; CXGate 0 2] ∧
    bindings c = [(0, 0); (1, 1); (2, 2)] ∧
    circ_data c = gates c ++ [MeasureOp 0 0; MeasureOp 1 1; MeasureOp 2 2].
Proof.
  intros Hb2 Hb3.
  destruct (script2_returns e2 Hb2) as (att1 & r1 & att2 & r2 & _ & _ & Hs2).
  destruct (script3_returns e3 Hb3) as (att & r & _ & Hs3).
  eexists _, _, _, _, ghz_circuit.
  split; [exact Hs2|]. split; [exact Hs3|].
  split.
  { unfold script2_state, script2_heap, script2_globals.
    cbn [heap TwoQubit.qc_ghz].
    rewrite lookup_insert_ne by lia. apply lookup_insert_eq. }
  split.
  { unfold script3_state, script3_globals. cbn [heap ThreeQubit.qc_ghz].
    rewrite lookup_insert_ne by lia. apply lookup_insert_eq. }
  repeat split.
Qed.

Lemma ghz_circuits_agree_witness :
  get_backend_fails desktop [] "qasm_simulator" = None ∧
  get_backend_fails headless [] "qasm_simulator" = None ∧
  ∃ g2 σ2 g3 σ3 c,
    TwoQubit.script desktop init_state = (Returned g2, σ2) ∧
    ThreeQubit.script headless init_state = (Returned g3, σ3) ∧
    heap σ2 !! TwoQubit.qc_ghz g2 = Some c ∧
    heap σ3 !! ThreeQubit.qc_ghz g3 = Some c.
Proof.
  split; [reflexivity|]. split; [reflexivity|].
  destruct (ghz_circuits_agree desktop headless eq_refl eq_refl)
    as (g2 & σ2 & g3 & σ3 & c & H2 & H3 & Hl2 & Hl3 & _).
  exists g2, σ2, g3, σ3, c. auto.
Defined.

(** ** Frequency tables of the scripts *)

(** C4: the frequency table of every sampler run sums to the shot count the
    run was given, and the scripts give 1024: the Bell table and the GHZ
    table of the 2-qubit script and the GHZ table of the 3-qubit script each
    sum to 1024. *)
Theorem counts_sum_to_shots (e2 e3 : Env) :
  get_backend_fails e2 [] "qasm_simulator" = None →
  get_backend_fails e3 [] "qasm_simulator" = None →
  ∃ g2 σ2 g3 σ3,
    TwoQubit.script e2 init_state = (Returned g2, σ2) ∧
    ThreeQubit.script e3 init_state = (Returned g3, σ3) ∧
    TwoQubit.num_shots = 1024%nat ∧
    ThreeQubit.num_shots = 1024%nat ∧
    total (TwoQubit.counts g2) = TwoQubit.num_shots ∧
    total (TwoQubit.counts_ghz g2) = TwoQubit.num_shots ∧
    total (ThreeQubit.counts_ghz g3) = ThreeQubit.num_shots ∧
    (∀ e σ backend circ qc shots job σ1 table σ3,
       run backend circ shots e σ = (Returned job, σ1) →
       (job ← result job; get_counts job qc) e σ1 = (Returned table, σ3) →
       total table = shots).
Proof.
  intros Hb2 Hb3.
  destruct (script2_returns e2 Hb2) as (att1 & r1 & att2 & r2 & _ & _ & Hs2).
  destruct (script3_returns e3 Hb3) as (att & r & _ & Hs3).
  eexists _, _, _, _.
  split; [exact Hs2|]. split; [exact Hs3|].
  split; [reflexivity|]. split; [reflexivity|].
  unfold script2_globals, script3_globals, bell_counts, ghz2_counts, ghz3_counts.
  cbn [TwoQubit.counts TwoQubit.counts_ghz ThreeQubit.counts_ghz].
  rewrite !total_counts_of.
  split; [reflexivity|]. split; [reflexivity|]. split; [reflexivity|].
  intros e σ backend circ qc shots job σ1 table σ3 Hrun Hcounts.
  unfold run, load, ask in Hrun. revert Hrun. py_cbn.
  destruct (heap σ !! circ) as [c|]; [|discriminate].
  intros [= <- <-].
  revert Hcounts. unfold result, get_counts, load. py_cbn.
  destruct (heap σ !! qc); [|discriminate].
  intros [= <- _]. rewrite total_tally. apply length_sample.
Qed.

Lemma counts_sum_to_shots_witness :
  get_backend_fails desktop [] "qasm_simulator" = None ∧
  get_backend_fails headless [] "qasm_simulator" = None ∧
  ∃ g2 σ2 g3 σ3,
    TwoQubit.script desktop init_state = (Returned g2, σ2) ∧
    ThreeQubit.script headless init_state = (Returned g3, σ3) ∧
    total (TwoQubit.counts g2) = 1024%nat ∧
    total (TwoQubit.counts_ghz g2) = 1024%nat ∧
    total (ThreeQubit.counts_ghz g3) = 1024%nat.
Proof.
  split; [reflexivity|]. split; [reflexivity|].
  destruct (counts_sum_to_shots desktop headless eq_refl eq_refl)
    as (g2 & σ2 & g3 & σ3 & H2 & H3 & _ & _ & Ht1 & Ht2 & Ht3 & _).
  exists g2, σ2, g3, σ3. auto.
Defined.

(** ** Backend handles *)


















(** ** Reporting *)

Lemma table_in_bell_events e : EPrint (PCounts (bell_counts e)) ∈ bell_events e.
Proof.
  unfold bell_events, pipeline_events, bell_report. cbn [app].
  rewrite !elem_of_cons. auto 10.
Qed.

Lemma table_in_ghz2_events e att1 r1 :
  EPrint (PCounts (ghz2_counts e att1 r1)) ∈ ghz2_events e att1 r1.
Proof.
  unfold ghz2_events, pipeline_events, ghz_report. cbn [app].
  rewrite !elem_of_cons. auto 10.
Qed.

Lemma table_in_ghz3_events e : EPrint (PCounts (ghz3_counts e)) ∈ ghz3_events e.
Proof.
  unfold ghz3_events, pipeline_events, ghz_report. cbn [app].
  rewrite !elem_of_cons. auto 10.
Qed.

Lemma no_render_in_bell_events e :
  forallb (λ ev, negb (is_render ev)) (bell_events e) = true.
Proof. reflexivity. Qed.

(** C5: whatever the plotting calls do, raise at any of them or succeed, both
    scripts return normally; the frequency tables are printed in every case;
    and when a plotting call raises, the warning that carries the message of
    the exception is printed. *)
Theorem rendering_failure_tolerated (e2 e3 : Env)
    (att1 att2 att3 : list Event) (r1 r2 r3 : option string) :
  get_backend_fails e2 [] "qasm_simulator" = None →
  get_backend_fails e3 [] "qasm_simulator" = None →
  rendering e2 (bell_events e2) (bell_counts e2) bell_title att1 r1 →
  rendering e2 (ghz2_hist e2 att1 r1) (ghz2_counts e2 att1 r1) ghz_title
    att2 r2 →
  rendering e3 (ghz3_events e3) (ghz3_counts e3) ghz_title att3 r3 →
  ∃ g2 σ2 g3 σ3,
    TwoQubit.script e2 init_state = (Returned g2, σ2) ∧
    ThreeQubit.script e3 init_state = (Returned g3, σ3) ∧
    trace σ2 = bell_events e2 ++ att1 ++ bell_closing r1 ++
               ghz2_events e2 att1 r1 ++ att2 ++ ghz2_closing r2 ∧
    trace σ3 = ghz3_events e3 ++ att3 ++ ghz3_closing r3 ∧
    EPrint (PCounts (TwoQubit.counts g2)) ∈ trace σ2 ∧
    EPrint (PCounts (TwoQubit.counts_ghz g2)) ∈ trace σ2 ∧
    EPrint (PCounts (ThreeQubit.counts_ghz g3)) ∈ trace σ3 ∧
    (∀ msg, r1 = Some msg → bell_warning msg ∈ trace σ2) ∧
    (∀ msg, r2 = Some msg → ghz_warning msg ∈ trace σ2) ∧
    (∀ msg, r3 = Some msg → ghz_warning msg ∈ trace σ3).
Proof.
  intros Hb2 Hb3 H1 H2 H3.
  eexists _, _, _, _.
  split; [apply (script2_run _ _ _ _ _ Hb2 H1 H2)|].
  split; [apply (script3_run _ _ _ Hb3 H3)|].
  unfold script2_state, script3_state, script2_globals, script3_globals,
    script2_trace, ghz2_hist.
  cbn [trace TwoQubit.counts TwoQubit.counts_ghz ThreeQubit.counts_ghz].
  split; [rewrite <- !app_assoc; reflexivity|].
  split; [reflexivity|].
  pose proof (table_in_bell_events e2) as Ht1.
  pose proof (table_in_ghz2_events e2 att1 r1) as Ht2.
  pose proof (table_in_ghz3_events e3) as Ht3.
  split; [rewrite !elem_of_app; left; left; exact Ht1|].
  split; [rewrite !elem_of_app; left; right; right; right; exact Ht2|].
  split; [rewrite !elem_of_app; left; exact Ht3|].
  split; [|split]; intros msg ->; rewrite !elem_of_app.
  - left. right. right. left. apply list_elem_of_here.
  - right. right. apply list_elem_of_here.
  - right. right. apply list_elem_of_here.
Qed.

Lemma rendering_failure_tolerated_witness :
  ∃ g2 σ2 g3 σ3,
    TwoQubit.script headless init_state = (Returned g2, σ2) ∧
    ThreeQubit.script headless init_state = (Returned g3, σ3) ∧
    EPrint (PCounts (TwoQubit.counts g2)) ∈ trace σ2 ∧
    EPrint (PCounts (TwoQubit.counts_ghz g2)) ∈ trace σ2 ∧
    EPrint (PCounts (ThreeQubit.counts_ghz g3)) ∈ trace σ3 ∧
    bell_warning no_display ∈ trace σ2 ∧
    ghz_warning no_display ∈ trace σ2 ∧
    ghz_warning no_display ∈ trace σ3.
Proof.
  set (msg := no_display).
  assert (H1 : rendering headless (bell_events headless)
                 (bell_counts headless) bell_title
                 [EPlotHistogram (bell_counts headless) bell_title] (Some msg))
    by (apply render_plot_raises; reflexivity).
  set (att1 := [EPlotHistogram (bell_counts headless) bell_title]) in H1.
  assert (H2 : rendering headless (ghz2_hist headless att1 (Some msg))
                 (ghz2_counts headless att1 (Some msg)) ghz_title
                 [EPlotHistogram (ghz2_counts headless att1 (Some msg))
                    ghz_title]
                 (Some msg))
    by (apply render_plot_raises; reflexivity).
  assert (H3 : rendering headless (ghz3_events headless)
                 (ghz3_counts headless) ghz_title
                 [EPlotHistogram (ghz3_counts headless) ghz_title] (Some msg))
    by (apply render_plot_raises; reflexivity).
  destruct (rendering_failure_tolerated headless headless _ _ _ _ _ _
              eq_refl eq_refl H1 H2 H3)
    as (g2 & σ2 & g3 & σ3 & Hs2 & Hs3 & _ & _ & Ht1 & Ht2 & Ht3 & Hw1 & Hw2 & Hw3).
  exists g2, σ2, g3, σ3.
  split; [exact Hs2|]. split; [exact Hs3|].
  split; [exact Ht1|]. split; [exact Ht2|]. split; [exact Ht3|].
  split; [exact (Hw1 msg eq_refl)|].
  split; [exact (Hw2 msg eq_refl) | exact (Hw3 msg eq_refl)].
Defined.

(** C10: in the 2-qubit script nothing up to and including the printing of
    the Bell frequency table is a plotting call, and the first plotting call
    comes right after it; however the Bell plotting goes, a raise included,
    the script goes on to build the 3-qubit GHZ circuit, transpile it, run it
    for 1024 shots on the same backend, and print its diagram and its
    frequency table, and returns normally. *)
Theorem bell_report_precedes_plot_and_ghz_follows (e : Env)
    (att1 att2 : list Event) (r1 r2 : option string) :
  get_backend_fails e [] "qasm_simulator" = None →
  rendering e (bell_events e) (bell_counts e) bell_title att1 r1 →
  rendering e (ghz2_hist e att1 r1) (ghz2_counts e att1 r1) ghz_title att2 r2 →
  ∃ g σ c',
    TwoQubit.script e init_state = (Returned g, σ) ∧
    trace σ = bell_events e ++ att1 ++ bell_closing r1 ++
              ghz2_events e att1 r1 ++ att2 ++ ghz2_closing r2 ∧
    forallb (λ ev, negb (is_render ev)) (bell_events e) = true ∧
    last (bell_events e) = Some (EPrint (PCounts (TwoQubit.counts g))) ∧
    head att1 = Some (EPlotHistogram (TwoQubit.counts g) bell_title) ∧
    (∀ msg, r1 = Some msg → bell_warning msg ∈ bell_closing r1) ∧
    heap σ !! TwoQubit.qc_ghz g = Some ghz_circuit ∧
    heap σ !! TwoQubit.transpiled_qc_ghz g = Some c' ∧
    ghz2_events e att1 r1 =
      [EPrint (PStr (nl ++ "--- Creating a 3-Qubit GHZ State Circuit ---"));
       ETranspile ghz_circuit (TwoQubit.simulator g);
       ERun c' (TwoQubit.simulator g) 1024;
       EPrint (PStr (nl ++ "--- 3-Qubit GHZ State Circuit Diagram ---"));
       EPrint (PDiagram ghz_circuit);
       EPrint (PStr (nl ++ "--- 3-Qubit GHZ State Measurement Outcomes (Simulated 1024 shots) ---"));
       EPrint (PCounts (TwoQubit.counts_ghz g))].
Proof.
  intros Hb H1 H2.
  eexists _, _, _.
  split; [apply (script2_run _ _ _ _ _ Hb H1 H2)|].
  unfold script2_state, script2_globals, script2_trace, ghz2_hist.
  cbn [trace heap TwoQubit.counts TwoQubit.counts_ghz TwoQubit.qc_ghz
       TwoQubit.transpiled_qc_ghz TwoQubit.simulator].
  split; [rewrite <- !app_assoc; reflexivity|].
  split; [reflexivity|].
  split; [reflexivity|].
  split; [destruct H1; reflexivity|].
  split; [intros msg ->; apply list_elem_of_here|].
  split.
  { unfold script2_heap. rewrite lookup_insert_ne by lia.
    apply lookup_insert_eq. }
  split; [unfold script2_heap; apply lookup_insert_eq|].
  reflexivity.
Qed.

Lemma bell_report_precedes_plot_and_ghz_follows_witness :
  ∃ g σ,
    TwoQubit.script headless init_state = (Returned g, σ) ∧
    bell_warning no_display ∈ trace σ ∧
    heap σ !! TwoQubit.qc_ghz g = Some ghz_circuit ∧
    EPrint (PDiagram ghz_circuit) ∈ trace σ.
Proof.
  set (msg := no_display).
  assert (H1 : rendering headless (bell_events headless)
                 (bell_counts headless) bell_title
                 [EPlotHistogram (bell_counts headless) bell_title] (Some msg))
    by (apply render_plot_raises; reflexivity).
  set (att1 := [EPlotHistogram (bell_counts headless) bell_title]) in H1.
  assert (H2 : rendering headless (ghz2_hist headless att1 (Some msg))
                 (ghz2_counts headless att1 (Some msg)) ghz_title
                 [EPlotHistogram (ghz2_counts headless att1 (Some msg))
                    ghz_title]
                 (Some msg))
    by (apply render_plot_raises; reflexivity).
  destruct (bell_report_precedes_plot_and_ghz_follows headless _ _ _ _
              eq_refl H1 H2)
    as (g & σ & c' & Hs & Htr & _ & _ & _ & Hw & Hq & _ & Hev).
  exists g, σ. split; [exact Hs|].
  split.
  { rewrite Htr, !elem_of_app. right. right. left. exact (Hw msg eq_refl). }
  split; [exact Hq|].
  rewrite Htr, Hev, !elem_of_app. right. right. right. left.
  rewrite !elem_of_cons. auto 10.
Defined.

(** ** When the backend cannot be resolved *)

(** X1: the backend lookup is not guarded.  When it raises, each script ends
    with that exception and has printed, transpiled, run and plotted nothing;
    the 2-qubit script has already built its Bell circuit (the lookup comes
    after the construction), the 3-qubit script has built nothing (the lookup
    comes first). *)
Theorem backend_failure_is_fatal (e : Env) (msg : string) :
  get_backend_fails e [] "qasm_simulator" = Some msg →
  ∃ σ2 σ3,
    TwoQubit.script e init_state = (Raised msg, σ2) ∧
    ThreeQubit.script e init_state = (Raised msg, σ3) ∧
    trace σ2 = [] ∧
    trace σ3 = [] ∧
    heap σ2 = {[ 0%nat := bell_circuit ]} ∧
    heap σ3 = ∅.
Proof.
  intros Hb. eexists _, _. split; [|split].
  - unfold TwoQubit.script.
    erewrite bind_returned by apply build_qc_run.
    erewrite bind_raised.
    2:{ unfold TwoQubit.simulate.
        erewrite bind_raised by (apply Aer_get_backend_raises; exact Hb).
        reflexivity. }
    reflexivity.
  - unfold ThreeQubit.script.
    erewrite bind_raised by (apply Aer_get_backend_raises; exact Hb).
    reflexivity.
  - cbn [trace heap init_state next_id]. rewrite insert_empty.
    repeat split.
Qed.

Lemma backend_failure_is_fatal_witness :
  get_backend_fails offline [] "qasm_simulator" = Some backend_not_found ∧
  ∃ σ2 σ3,
    TwoQubit.script offline init_state = (Raised backend_not_found, σ2) ∧
    ThreeQubit.script offline init_state = (Raised backend_not_found, σ3) ∧
    trace σ2 = [] ∧
    trace σ3 = [].
Proof.
  split; [reflexivity|].
  destruct (backend_failure_is_fatal offline backend_not_found eq_refl)
    as (σ2 & σ3 & H2 & H3 & Ht2 & Ht3 & _).
  exists σ2, σ3. auto.
Defined.

(** ** What the reports never show *)

Ltac explicit_trace :=
  unfold script2_state, script3_state, script2_trace, ghz2_hist, ghz3_events,
    bell_events, ghz2_events, pipeline_events, bell_report, ghz_report,
    bell_closing, ghz2_closing, ghz3_closing, ghz_warning, bell_warning,
    bell_success, ghz3_success;
  cbn [app trace].

Ltac event_eq H :=
  first
    [ discriminate H
    | injection H as H; cbv in H;
      first [ discriminate H | simplify_eq; reflexivity ] ].

Ltac elem_cases H :=
  lazymatch type of H with
  | _ ∈ [] => apply elem_of_nil in H; destruct H
  | _ ∈ _ :: _ =>
      let Hc := fresh "Hc" in
      apply elem_of_cons in H; destruct H as [Hc|H];
      [event_eq Hc | elem_cases H]
  end.

Ltac elem_here :=
  repeat first [apply list_elem_of_here | apply list_elem_of_further].

(** X2: in the 3-qubit script the line that announces a displayed histogram is
    printed exactly when none of the three plotting calls raised, and the
    warning exactly when one did, with the message of that exception;
    [plot_histogram] is always called, once; [plt.tight_layout] is called
    exactly when [plot_histogram] returned, and [plt.show] exactly when both
    returned. *)
Theorem ghz3_success_or_warning (e : Env) (att : list Event)
    (r : option string) :
  get_backend_fails e [] "qasm_simulator" = None →
  rendering e (ghz3_events e) (ghz3_counts e) ghz_title att r →
  ∃ g σ,
    ThreeQubit.script e init_state = (Returned g, σ) ∧
    (ghz3_success ∈ trace σ ↔ r = None) ∧
    (∀ msg, ghz_warning msg ∈ trace σ ↔ r = Some msg) ∧
    plot_calls (trace σ) = 1%nat ∧
    (ETightLayout ∈ trace σ ↔
       plot_histogram_fails e
         (ghz3_events e ++ [EPlotHistogram (ghz3_counts e) ghz_title]) = None) ∧
    (EShow ∈ trace σ ↔
       plot_histogram_fails e
         (ghz3_events e ++ [EPlotHistogram (ghz3_counts e) ghz_title]) = None ∧
       tight_layout_fails e
         (ghz3_events e ++
            [EPlotHistogram (ghz3_counts e) ghz_title; ETightLayout]) = None).
Proof.
  intros Hb Hr. eexists _, _.
  split; [apply (script3_run _ _ _ Hb Hr)|].
  destruct Hr as [m H1 | m H1 H2 | m H1 H2 H3 | H1 H2 H3];
    rewrite H1; try rewrite H2; explicit_trace.
  - split; [split; [intros Hin; elem_cases Hin | discriminate]|].
    split; [intros msg; split; [intros Hin; elem_cases Hin | intros [= <-]; elem_here]|].
    split; [reflexivity|].
    split; [split; [intros Hin; elem_cases Hin | discriminate]|].
    split; [intros Hin; elem_cases Hin | intros [[=] _]].
  - split; [split; [intros Hin; elem_cases Hin | discriminate]|].
    split; [intros msg; split; [intros Hin; elem_cases Hin | intros [= <-]; elem_here]|].
    split; [reflexivity|].
    split; [split; [intros _; reflexivity | intros _; elem_here]|].
    split; [intros Hin; elem_cases Hin | intros [_ [=]]].
  - split; [split; [intros Hin; elem_cases Hin | discriminate]|].
    split; [intros msg; split; [intros Hin; elem_cases Hin | intros [= <-]; elem_here]|].
    split; [reflexivity|].
    split; [split; [intros _; reflexivity | intros _; elem_here]|].
    split; [intros _; split; reflexivity | intros _; elem_here].
  - split; [split; [intros _; reflexivity | intros _; elem_here]|].
    split; [intros msg; split; [intros Hin; elem_cases Hin | discriminate]|].
    split; [reflexivity|].
    split; [split; [intros _; reflexivity | intros _; elem_here]|].
    split; [intros _; split; reflexivity | intros _; elem_here].
Qed.

Lemma ghz3_success_or_warning_witness :
  get_backend_fails headless [] "qasm_simulator" = None ∧
  ∃ g σ,
    ThreeQubit.script headless init_state = (Returned g, σ) ∧
    ghz_warning no_display ∈ trace σ ∧
    (ghz3_success ∉ trace σ) ∧
    (EShow ∉ trace σ).
Proof.
  split; [reflexivity|].
  assert (Hr : rendering headless (ghz3_events headless)
                 (ghz3_counts headless) ghz_title
                 [EPlotHistogram (ghz3_counts headless) ghz_title]
                 (Some no_display))
    by (apply render_plot_raises; reflexivity).
  destruct (ghz3_success_or_warning headless _ _ eq_refl Hr)
    as (g & σ & Hs & Hok & Hw & _ & _ & Hshow).
  exists g, σ. split; [exact Hs|].
  split; [apply Hw; reflexivity|].
  split.
  - intros Hin. apply Hok in Hin. discriminate Hin.
  - intros Hin. apply Hshow in Hin. destruct Hin as [Hin _]. discriminate Hin.
Defined.

(** X3: in the 2-qubit script the Bell success line is printed exactly when
    none of the three Bell plotting calls raised, and each warning exactly
    when a plotting call of its block raised, with the message of that
    exception.  The GHZ block has no success line: when its plot succeeds the
    script ends on [plt.show] without a further word.  [plot_histogram] is
    always called twice, whatever the first call did. *)
Theorem bell_success_or_warning (e : Env) (att1 att2 : list Event)
    (r1 r2 : option string) :
  get_backend_fails e [] "qasm_simulator" = None →
  rendering e (bell_events e) (bell_counts e) bell_title att1 r1 →
  rendering e (ghz2_hist e att1 r1) (ghz2_counts e att1 r1) ghz_title att2 r2 →
  ∃ g σ,
    TwoQubit.script e init_state = (Returned g, σ) ∧
    (bell_success ∈ trace σ ↔ r1 = None) ∧
    (∀ msg, bell_warning msg ∈ trace σ ↔ r1 = Some msg) ∧
    (∀ msg, ghz_warning msg ∈ trace σ ↔ r2 = Some msg) ∧
    (ghz3_success ∉ trace σ) ∧
    (r2 = None → last (trace σ) = Some EShow) ∧
    plot_calls (trace σ) = 2%nat.
Proof.
  intros Hb H1 H2. eexists _, _.
  split; [apply (script2_run _ _ _ _ _ Hb H1 H2)|].
  destruct H1 as [m1 _ | m1 _ _ | m1 _ _ _ | _ _ _];
    destruct H2 as [m2 _ | m2 _ _ | m2 _ _ _ | _ _ _];
    explicit_trace;
    (split;
     [split; [first [intros _; reflexivity | intros Hin; elem_cases Hin]
             |first [discriminate | intros _; elem_here]]|]);
    (split;
     [intros msg; split;
      [intros Hin; elem_cases Hin | first [discriminate | intros [= <-]; elem_here]]|]);
    (split;
     [intros msg; split;
      [intros Hin; elem_cases Hin | first [discriminate | intros [= <-]; elem_here]]|]);
    (split; [intros Hin; elem_cases Hin|]);
    (split; [first [discriminate | intros _; reflexivity] | reflexivity]).
Qed.

Lemma bell_success_or_warning_witness :
  get_backend_fails headless [] "qasm_simulator" = None ∧
  ∃ g σ,
    TwoQubit.script headless init_state = (Returned g, σ) ∧
    bell_warning no_display ∈ trace σ ∧
    ghz_warning no_display ∈ trace σ ∧
    (bell_success ∉ trace σ) ∧
    plot_calls (trace σ) = 2%nat.
Proof.
  split; [reflexivity|].
  assert (H1 : rendering headless (bell_events headless)
                 (bell_counts headless) bell_title
                 [EPlotHistogram (bell_counts headless) bell_title]
                 (Some no_display))
    by (apply render_plot_raises; reflexivity).
  set (att1 := [EPlotHistogram (bell_counts headless) bell_title]) in H1.
  assert (H2 : rendering headless (ghz2_hist headless att1 (Some no_display))
                 (ghz2_counts headless att1 (Some no_display)) ghz_title
                 [EPlotHistogram (ghz2_counts headless att1 (Some no_display))
                    ghz_title]
                 (Some no_display))
    by (apply render_plot_raises; reflexivity).
  destruct (bell_success_or_warning headless _ _ _ _ eq_refl H1 H2)
    as (g & σ & Hs & Hok & Hw1 & Hw2 & _ & _ & Hn).
  exists g, σ. split; [exact Hs|].
  split; [apply Hw1; reflexivity|].
  split; [apply Hw2; reflexivity|].
  split; [|exact Hn].
  intros Hin. apply Hok in Hin. discriminate Hin.
Defined.

(** ** What is plotted, drawn and run *)

Ltac by_rendering_cases H1 H2 :=
  destruct H1 as [?m1 _ | ?m1 _ _ | ?m1 _ _ _ | _ _ _];
  destruct H2 as [?m2 _ | ?m2 _ _ | ?m2 _ _ _ | _ _ _];
  explicit_trace.

(** X4: in both scripts every call of [plot_histogram] comes directly after
    the print of the very frequency table it is given: the histogram is drawn
    from the table the text report shows. *)
Theorem histogram_of_printed_table (e2 e3 : Env) :
  get_backend_fails e2 [] "qasm_simulator" = None →
  get_backend_fails e3 [] "qasm_simulator" = None →
  ∃ g2 σ2 g3 σ3,
    TwoQubit.script e2 init_state = (Returned g2, σ2) ∧
    ThreeQubit.script e3 init_state = (Returned g3, σ3) ∧
    plots_printed_tables None (trace σ2) ∧
    plots_printed_tables None (trace σ3).
Proof.
  intros Hb2 Hb3.
  destruct (script2_returns e2 Hb2) as (att1 & r1 & att2 & r2 & H1 & H2 & Hs2).
  destruct (script3_returns e3 Hb3) as (att & r & H3 & Hs3).
  eexists _, _, _, _.
  split; [exact Hs2|]. split; [exact Hs3|]. clear Hs2 Hs3.
  split.
  - by_rendering_cases H1 H2; cbn [plots_printed_tables]; repeat split.
  - destruct H3; explicit_trace; cbn [plots_printed_tables]; repeat split.
Qed.

Lemma histogram_of_printed_table_witness :
  get_backend_fails desktop [] "qasm_simulator" = None ∧
  get_backend_fails headless [] "qasm_simulator" = None ∧
  ∃ g2 σ2 g3 σ3,
    TwoQubit.script desktop init_state = (Returned g2, σ2) ∧
    ThreeQubit.script headless init_state = (Returned g3, σ3) ∧
    plots_printed_tables None (trace σ2) ∧
    plots_printed_tables None (trace σ3).
Proof.
  split; [reflexivity|]. split; [reflexivity|].
  exact (histogram_of_printed_table desktop headless eq_refl eq_refl).
Defined.

(** X5: the diagrams the scripts print are those of the circuits as built,
    whatever [transpile] returned: the Bell circuit and then the GHZ circuit
    in the 2-qubit script, the GHZ circuit in the 3-qubit script. *)
Theorem diagrams_of_built_circuits (e2 e3 : Env) :
  get_backend_fails e2 [] "qasm_simulator" = None →
  get_backend_fails e3 [] "qasm_simulator" = None →
  ∃ g2 σ2 g3 σ3,
    TwoQubit.script e2 init_state = (Returned g2, σ2) ∧
    ThreeQubit.script e3 init_state = (Returned g3, σ3) ∧
    diagrams (trace σ2) = [bell_circuit; ghz_circuit] ∧
    diagrams (trace σ3) = [ghz_circuit].
Proof.
  intros Hb2 Hb3.
  destruct (script2_returns e2 Hb2) as (att1 & r1 & att2 & r2 & H1 & H2 & Hs2).
  destruct (script3_returns e3 Hb3) as (att & r & H3 & Hs3).
  eexists _, _, _, _.
  split; [exact Hs2|]. split; [exact Hs3|]. clear Hs2 Hs3.
  split.
  - by_rendering_cases H1 H2; reflexivity.
  - destruct H3; explicit_trace; reflexivity.
Qed.

Lemma diagrams_of_built_circuits_witness :
  get_backend_fails desktop [] "qasm_simulator" = None ∧
  get_backend_fails headless [] "qasm_simulator" = None ∧
  ∃ g2 σ2 g3 σ3,
    TwoQubit.script desktop init_state = (Returned g2, σ2) ∧
    ThreeQubit.script headless init_state = (Returned g3, σ3) ∧
    diagrams (trace σ2) = [bell_circuit; ghz_circuit] ∧
    diagrams (trace σ3) = [ghz_circuit].
Proof.
  split; [reflexivity|]. split; [reflexivity|].
  exact (diagrams_of_built_circuits desktop headless eq_refl eq_refl).
Defined.

(** X6: in both scripts every run comes directly after the call of
    [transpile] for the same backend handle and executes the circuit that this
    call returned. *)
Theorem runs_execute_transpiled (e2 e3 : Env) :
  get_backend_fails e2 [] "qasm_simulator" = None →
  get_backend_fails e3 [] "qasm_simulator" = None →
  ∃ g2 σ2 g3 σ3,
    TwoQubit.script e2 init_state = (Returned g2, σ2) ∧
    ThreeQubit.script e3 init_state = (Returned g3, σ3) ∧
    runs_follow_transpile e2 [] (trace σ2) ∧
    runs_follow_transpile e3 [] (trace σ3).
Proof.
  intros Hb2 Hb3.
  destruct (script2_returns e2 Hb2) as (att1 & r1 & att2 & r2 & H1 & H2 & Hs2).
  destruct (script3_returns e3 Hb3) as (att & r & H3 & Hs3).
  eexists _, _, _, _.
  split; [exact Hs2|]. split; [exact Hs3|]. clear Hs2 Hs3.
  split.
  - by_rendering_cases H1 H2; cbn [runs_follow_transpile];
      repeat (split; [first [exact I | eexists _, _; split; reflexivity]|]);
      exact I.
  - destruct H3; explicit_trace; cbn [runs_follow_transpile];
      repeat (split; [first [exact I | eexists _, _; split; reflexivity]|]);
      exact I.
Qed.

Lemma runs_execute_transpiled_witness :
  get_backend_fails desktop [] "qasm_simulator" = None ∧
  get_backend_fails headless [] "qasm_simulator" = None ∧
  ∃ g2 σ2 g3 σ3,
    TwoQubit.script desktop init_state = (Returned g2, σ2) ∧
    ThreeQubit.script headless init_state = (Returned g3, σ3) ∧
    runs_follow_transpile desktop [] (trace σ2) ∧
    runs_follow_transpile headless [] (trace σ3).
Proof.
  split; [reflexivity|]. split; [reflexivity|].
  exact (runs_execute_transpiled desktop headless eq_refl eq_refl).
Defined.

(** X7: in both scripts [transpile] is only ever called on a circuit that is
    complete: its indices are within its width, and every one of its qubits
    is measured into the classical slot of the same index, each slot once.
    No circuit reaches the backend before its measurements are in place. *)
Theorem transpile_gets_measured_circuits (e2 e3 : Env) :
  get_backend_fails e2 [] "qasm_simulator" = None →
  get_backend_fails e3 [] "qasm_simulator" = None →
  ∃ g2 σ2 g3 σ3,
    TwoQubit.script e2 init_state = (Returned g2, σ2) ∧
    ThreeQubit.script e3 init_state = (Returned g3, σ3) ∧
    transpiles_measured (trace σ2) ∧
    transpiles_measured (trace σ3).
Proof.
  intros Hb2 Hb3.
  destruct (script2_returns e2 Hb2) as (att1 & r1 & att2 & r2 & H1 & H2 & Hs2).
  destruct (script3_returns e3 Hb3) as (att & r & H3 & Hs3).
  eexists _, _, _, _.
  split; [exact Hs2|]. split; [exact Hs3|]. clear Hs2 Hs3.
  pose proof bell_circuit_well_formed as Hbell.
  pose proof ghz_circuit_well_formed as Hghz.
  assert (Hmb : fully_measured bell_circuit) by reflexivity.
  assert (Hmg : fully_measured ghz_circuit) by reflexivity.
  unfold transpiles_measured. split.
  - by_rendering_cases H1 H2;
      repeat (apply Forall_cons_2;
              [first [exact I | exact (conj Hbell Hmb) | exact (conj Hghz Hmg)]|]);
      apply Forall_nil_2.
  - destruct H3; explicit_trace;
      repeat (apply Forall_cons_2;
              [first [exact I | exact (conj Hghz Hmg)]|]);
      apply Forall_nil_2.
Qed.

Lemma transpile_gets_measured_circuits_witness :
  get_backend_fails desktop [] "qasm_simulator" = None ∧
  get_backend_fails headless [] "qasm_simulator" = None ∧
  ∃ g2 σ2 g3 σ3,
    TwoQubit.script desktop init_state = (Returned g2, σ2) ∧
    ThreeQubit.script headless init_state = (Returned g3, σ3) ∧
    transpiles_measured (trace σ2) ∧
    transpiles_measured (trace σ3).
Proof.
  split; [reflexivity|]. split; [reflexivity|].
  exact (transpile_gets_measured_circuits desktop headless eq_refl eq_refl).
Defined.
